(** * ldcoolp_figshare.main : a shallow embedding of [FigshareInstituteAdmin]

    The Python class talks to the Figshare REST API through
    [redata_request], reshapes the JSON answers with pandas and logs what
    it does.  The embedding keeps that structure:

    - JSON values are an inductive type, Python dictionaries are
      association lists in insertion order;
    - a [DataFrame] is a row index plus named columns;
    - the methods run in a state-and-exception monad whose state (the
      [world]) records every request with its outcome, every log record
      and the lines waiting on the console;
    - the remote server is a variable of the development: any function
      from the history of exchanges and a request to an outcome. *)

From Stdlib Require Import ZArith Ascii String List Bool Lia.
From Stdlib Require Import DecimalString DecimalPos DecimalZ.
From stdpp Require Import base list strings.
Import ListNotations.

Local Open Scope string_scope.
Local Open Scope Z_scope.
Local Open Scope list_scope.

Set Warnings "-register-all".

(** ** Python values *)

(** Values decoded from JSON, plus [JNaN], the marker pandas puts in a
    cell whose record lacks the column's key.  JSON numbers are integers
    here: the only numbers the class inspects are identifiers. *)
Inductive json : Type :=
| JNull
| JNaN
| JBool (b : bool)
| JInt (z : Z)
| JStr (s : string)
| JList (l : list json)
| JDict (kv : list (string * json)).

(** Python exceptions that the modelled code can meet.  [OutOfModel] is
    not a Python exception: it marks inputs on which pandas or [re] do
    something this development does not describe (payloads that are not
    arrays of objects, dtype coercions, regular-expression operators other
    than the dot).  Where a run ends with it, nothing is said of what the
    program goes on to do. *)
Inductive exn : Type :=
| HTTPError
| KeyError (k : string)
| TypeError
| AttributeError
| ValueError
| IndexError
| EOFError
| UnboundLocalError
| OutOfModel.

Inductive result (A : Type) : Type :=
| Ok (a : A)
| Raise (e : exn).
Arguments Ok {A} a.
Arguments Raise {A} e.

Definition rbind {A B} (r : result A) (k : A -> result B) : result B :=
  match r with
  | Ok a => k a
  | Raise e => Raise e
  end.

(** [bool(v)] *)
Definition truthy (v : json) : bool :=
  match v with
  | JNull => false
  | JNaN => true
  | JBool b => b
  | JInt z => negb (z =? 0)
  | JStr s => negb (String.eqb s "")
  | JList l => match l with [] => false | _ => true end
  | JDict kv => match kv with [] => false | _ => true end
  end.

(** [d[k]] on a dictionary held as an association list. *)
Fixpoint assoc {A} (k : string) (kv : list (string * A)) : option A :=
  match kv with
  | [] => None
  | (k', v) :: rest => if String.eqb k k' then Some v else assoc k rest
  end.

(** [v[k]] for a string key [k]: only dictionaries can be subscripted by a
    string. *)
Definition subscript (v : json) (k : string) : result json :=
  match v with
  | JDict kv =>
      match assoc k kv with
      | Some x => Ok x
      | None => Raise (KeyError k)
      end
  | _ => Raise TypeError
  end.

(** ** Strings *)

(** [str(z)] for an integer. *)
Definition str_of_Z (z : Z) : string := NilEmpty.string_of_int (Z.to_int z).

Definition lower_ascii (c : ascii) : ascii :=
  let n := nat_of_ascii c in
  if (Nat.leb 65 n && Nat.leb n 90)%bool then ascii_of_nat (n + 32) else c.

(** [s.lower()].  Only the letters A-Z change; no other character
    lowercases to [y], [e] or [s], which is all [reserve_doi] asks of
    it. *)
Fixpoint lower (s : string) : string :=
  match s with
  | EmptyString => EmptyString
  | String c s' => String (lower_ascii c) (lower s')
  end.


(** [s.replace(old, new)] for a non-empty [old]: scan from the left, and
    after a match skip the rest of the matched text. *)
Fixpoint replace_go (old new : string) (skip : nat) (s : string) : string :=
  match s with
  | EmptyString => EmptyString
  | String c s' =>
      match skip with
      | S k => replace_go old new k s'
      | O =>
          if String.prefix old s
          then new +:+ replace_go old new (Nat.pred (String.length old)) s'
          else String c (replace_go old new O s')
      end
  end.

(** With an empty [old] Python inserts [new] before every character and
    at the end. *)
Fixpoint intersperse_after (new s : string) : string :=
  match s with
  | EmptyString => EmptyString
  | String c s' => String c (new +:+ intersperse_after new s')
  end.

Definition replace (old new s : string) : string :=
  match old with
  | EmptyString => new +:+ intersperse_after new s
  | _ => replace_go old new O s
  end.

(** *** The fragment of [re] used by [Series.str.contains]

    [str.contains(pat)] is [re.search(pat, cell)] (pandas' default is
    [regex=True]).  A pattern made of ordinary characters and dots is
    modelled; a pattern with any other operator is outside the model.

    A Python string is a sequence of code points, and the dot stands for
    one code point other than the newline.  The strings of this
    development hold the UTF-8 encoding of the Python string, in which a
    code point is one byte that is not a continuation byte followed by
    its continuation bytes (the bytes 10xxxxxx); a dot consumes all of
    them. *)
Inductive pat_item : Type :=
| PChar (c : ascii)
| PAny.

Definition is_re_operator (c : ascii) : bool :=
  existsb (Ascii.eqb c)
    ["\"; "^"; "$"; "*"; "+"; "?"; "{"; "}"; "["; "]"; "|"; "("; ")"]%char.

Fixpoint re_compile (pat : string) : option (list pat_item) :=
  match pat with
  | EmptyString => Some []
  | String c rest =>
      if is_re_operator c then None
      else
        match re_compile rest with
        | Some items =>
            Some ((if Ascii.eqb c "." then PAny else PChar c) :: items)
        | None => None
        end
  end.

Definition newline : ascii := ascii_of_nat 10.

(** A byte 10xxxxxx: it continues the code point begun before it. *)
Definition is_continuation (c : ascii) : bool :=
  let n := nat_of_ascii c in
  (Nat.leb 128 n && Nat.ltb n 192)%bool.

(** What follows the code point whose first byte has just been read. *)
Fixpoint skip_continuation (s : string) : string :=
  match s with
  | EmptyString => EmptyString
  | String c s' => if is_continuation c then skip_continuation s' else s
  end.

(** [pattern.match(s)]: the pattern matches at the start of [s]. *)
Fixpoint re_match (p : list pat_item) (s : string) {struct p} : bool :=
  match p with
  | [] => true
  | item :: p' =>
      match s with
      | EmptyString => false
      | String c s' =>
          match item with
          | PChar a => Ascii.eqb a c && re_match p' s'
          | PAny =>
              negb (Ascii.eqb c newline) && negb (is_continuation c) &&
              re_match p' (skip_continuation s')
          end
      end
  end.

(** [pattern.search(s)]: the pattern matches somewhere in [s].  A
    position inside a code point starts no match, as neither a dot nor
    the first byte of a character of the pattern matches a continuation
    byte. *)
Fixpoint re_search (p : list pat_item) (s : string) : bool :=
  re_match p s ||
  match s with
  | EmptyString => false
  | String _ s' => re_search p s'
  end.

(** ** The pandas operations the class uses *)

(** A table: the row labels and, per column in order, its name and its
    cells.  Every column built here has one cell per row label. *)
Record DataFrame : Type := mkDataFrame {
  df_index : list nat;
  df_columns : list (string * list json)
}.

(** [df.shape[0]] *)
Definition shape0 (df : DataFrame) : nat := List.length (df_index df).

Fixpoint as_records (l : list json) : option (list (list (string * json))) :=
  match l with
  | [] => Some []
  | JDict kv :: rest =>
      match as_records rest with
      | Some recs => Some (kv :: recs)
      | None => None
      end
  | _ :: _ => None
  end.

Definition add_key (seen : list string) (k : string) : list string :=
  if existsb (String.eqb k) seen then seen else seen ++ [k].

(** Column names: the records' keys in order of first appearance. *)
Definition keys_in_order (recs : list (list (string * json))) : list string :=
  fold_left (fun seen kv => fold_left add_key (map fst kv) seen) recs [].

Definition cell (k : string) (kv : list (string * json)) : json :=
  match assoc k kv with
  | Some v => v
  | None => JNaN
  end.

(** [pd.DataFrame(payload)] for a payload that is an array of objects.
    A cell holds the value as decoded: the conversions pandas applies to
    a whole column (an integer column with missing values becoming
    floating point, an all-null column becoming NaN) are not described.
    The statements below compare the cells of one table with those of
    another, or read them in columns of integers or of strings without
    gaps. *)
Definition pd_DataFrame (payload : json) : result DataFrame :=
  match payload with
  | JList l =>
      match as_records l with
      | Some recs =>
          Ok {| df_index := seq 0 (List.length recs);
                df_columns :=
                  map (fun k => (k, map (cell k) recs)) (keys_in_order recs) |}
      | None => Raise OutOfModel
      end
  | _ => Raise OutOfModel
  end.

(** [df[c]] *)
Definition df_getitem (c : string) (df : DataFrame) : result (list json) :=
  match assoc c (df_columns df) with
  | Some cells => Ok cells
  | None => Raise (KeyError c)
  end.

Definition has_column (c : string) (df : DataFrame) : bool :=
  existsb (fun col => String.eqb c (fst col)) (df_columns df).

(** [df.drop(columns=c)] *)
Definition df_drop_columns (c : string) (df : DataFrame) : result DataFrame :=
  if has_column c df
  then Ok {| df_index := df_index df;
             df_columns :=
               List.filter (fun col => negb (String.eqb c (fst col)))
                 (df_columns df) |}
  else Raise (KeyError c).

(** Keep the positions where the mask is true. *)
Fixpoint select {A} (mask : list bool) (l : list A) : list A :=
  match mask, l with
  | b :: mask', x :: l' => if b then x :: select mask' l' else select mask' l'
  | _, _ => []
  end.

(** [df[mask]] *)
Definition df_where (mask : list bool) (df : DataFrame) : DataFrame :=
  {| df_index := select mask (df_index df);
     df_columns := map (fun col => (fst col, select mask (snd col))) (df_columns df) |}.

Definition mem_nat (i : nat) (l : list nat) : bool := existsb (Nat.eqb i) l.

(** [df.drop(labels)]: removes the rows carrying one of the labels; a
    label that is not in the index is a [KeyError]. *)
Definition df_drop (labels : list nat) (df : DataFrame) : result DataFrame :=
  if forallb (fun l => mem_nat l (df_index df)) labels
  then Ok (df_where (map (fun i => negb (mem_nat i labels)) (df_index df)) df)
  else Raise (KeyError "labels").

(** [df.reset_index(drop=True)] *)
Definition df_reset_index (df : DataFrame) : DataFrame :=
  {| df_index := seq 0 (shape0 df); df_columns := df_columns df |}.

Fixpoint set_column (c : string) (cells : list json)
    (cols : list (string * list json)) : list (string * list json) :=
  match cols with
  | [] => [(c, cells)]
  | (c', old) :: rest =>
      if String.eqb c c' then (c', cells) :: rest
      else (c', old) :: set_column c cells rest
  end.

(** [df[c] = cells]: overwrites the column named [c] where it stands, or
    appends a new last column; the lengths must agree. *)
Definition df_setitem (c : string) (cells : list json) (df : DataFrame)
    : result DataFrame :=
  if Nat.eqb (List.length cells) (shape0 df)
  then Ok {| df_index := df_index df;
             df_columns := set_column c cells (df_columns df) |}
  else Raise ValueError.

Fixpoint mapM {A B} (f : A -> result B) (l : list A) : result (list B) :=
  match l with
  | [] => Ok []
  | x :: rest =>
      rbind (f x) (fun y => rbind (mapM f rest) (fun ys => Ok (y :: ys)))
  end.

(** [series.str.contains(pat)] on a column of strings. *)
Definition str_contains (pat : string) (cells : list json) : result (list bool) :=
  match re_compile pat with
  | None => Raise OutOfModel
  | Some p =>
      mapM (fun v => match v with
                     | JStr s => Ok (re_search p s)
                     | _ => Raise OutOfModel
                     end) cells
  end.

(** A column read as integers (the [id] columns, dtype int64). *)
Definition as_int (v : json) : result Z :=
  match v with
  | JInt z => Ok z
  | _ => Raise OutOfModel
  end.

Definition as_str (v : json) : result string :=
  match v with
  | JStr s => Ok s
  | _ => Raise OutOfModel
  end.

(** ** Requests, log records and the world *)

Inductive method : Type := GET | POST.

Record request : Type := mkRequest {
  rq_method : method;
  rq_url : string;
  rq_headers : list (string * string);
  rq_params : option (list (string * json))
}.

(** What [redata_request] does with a request: returns the decoded body
    or raises [HTTPError]. *)
Inductive outcome : Type :=
| Returned (body : json)
| Failed.

Record event : Type := mkEvent {
  ev_request : request;
  ev_outcome : outcome
}.

Inductive level : Type := INFO | WARNING.

(** The log of the world holds the records the class writes through
    [self.log].  [redata_request] is imported from redata-commons and is
    called without a logger: what it reports by itself when a request
    fails is no part of [w_log]. *)
Record world : Type := mkWorld {
  w_trace : list event;            (* exchanges so far, oldest first *)
  w_log : list (level * string);   (* records of self.log, oldest first *)
  w_stdin : list string            (* console lines not yet read *)
}.

(** [M A]: a computation that reads and extends the world and returns a
    value or raises. *)
Definition M (A : Type) : Type := world -> result A * world.

Definition ret {A} (a : A) : M A := fun w => (Ok a, w).

Definition raise {A} (e : exn) : M A := fun w => (Raise e, w).

Definition bind {A B} (m : M A) (k : A -> M B) : M B :=
  fun w =>
    match m w with
    | (Ok a, w') => k a w'
    | (Raise e, w') => (Raise e, w')
    end.

Definition lift {A} (r : result A) : M A := fun w => (r, w).

(** [try: body except HTTPError: handler] *)
Definition try_except_HTTPError {A} (body handler : M A) : M A :=
  fun w =>
    match body w with
    | (Raise HTTPError, w') => handler w'
    | other => other
    end.

Declare Scope py_scope.
Delimit Scope py_scope with py.
Notation "x <- m ;; k" := (bind m (fun x => k))
  (at level 100, m at next level, right associativity) : py_scope.
Notation "m ;;; k" := (bind m (fun _ => k))
  (at level 100, right associativity) : py_scope.

(** [for x in l: acc = body(x, acc)] *)
Fixpoint for_each {A S} (l : list A) (body : A -> S -> M S) (acc : S) : M S :=
  match l with
  | [] => ret acc
  | x :: rest => bind (body x acc) (for_each rest body)
  end.

Definition log_record (lv : level) (msg : string) : M unit :=
  fun w => (Ok tt, {| w_trace := w_trace w;
                      w_log := w_log w ++ [(lv, msg)];
                      w_stdin := w_stdin w |}).

Definition log_info : string -> M unit := log_record INFO.
Definition log_warning : string -> M unit := log_record WARNING.

(** [input(prompt)]: the next console line, [EOFError] when there is
    none. *)
Definition input (prompt : string) : M string :=
  fun w =>
    match w_stdin w with
    | line :: rest =>
        (Ok line, {| w_trace := w_trace w; w_log := w_log w; w_stdin := rest |})
    | [] => (Raise EOFError, w)
    end.

(** ** The class *)

Record FigshareInstituteAdmin : Type := mkFigshareInstituteAdmin {
  token : string;
  stage : bool;
  baseurl : string;
  baseurl_institute : string;
  headers : list (string * string);
  admin_filter : option (list string);
  ignore_admin : bool
}.

Definition __init__ (token : string) (stage : bool)
    (admin_filter : option (list string)) : FigshareInstituteAdmin :=
  let baseurl :=
    if negb stage then "https://api.figshare.com/v2/account/"
    else "https://api.figsh.com/v2/account/" in
  {| token := token;
     stage := stage;
     baseurl := baseurl;
     baseurl_institute := baseurl +:+ "institution/";
     headers :=
       [("Content-Type", "application/json")] ++
       (if negb (String.eqb token "")
        then [("Authorization", "token " +:+ token)] else []);
     admin_filter := admin_filter;
     ignore_admin := match admin_filter with Some _ => true | None => false end |}.

Definition endpoint (self : FigshareInstituteAdmin) (link : string)
    (institute : bool) : string :=
  if institute then baseurl_institute self +:+ link
  else baseurl self +:+ link.

(** Local arrays of [get_account_details].  The two flag arrays are only
    bound when [flag] is true. *)
Record locals : Type := mkLocals {
  num_articles : list Z;
  num_projects : list Z;
  num_collections : list Z;
  admin_flag : option (list string);
  reviewer_flag : option (list string);
  group_assoc : list string
}.

(** [a[n] = v]; an index past the end raises. *)
Definition array_set {A} (n : nat) (v : A) (a : list A) : result (list A) :=
  if Nat.ltb n (List.length a) then Ok (<[n := v]> a) else Raise IndexError.

(** [flags[n] = v] on an array that may be unbound. *)
Definition flag_set (n : nat) (v : string) (a : option (list string))
    : result (option (list string)) :=
  match a with
  | Some l => rbind (array_set n v l) (fun l' => Ok (Some l'))
  | None => Raise UnboundLocalError
  end.

(** [v == k] for an integer literal [k]. *)
Definition eq_int (v : json) (k : Z) : bool :=
  match v with
  | JInt z => z =? k
  | JBool b => (if b then 1 else 0) =? k
  | _ => false
  end.

Fixpoint chars (s : string) : list json :=
  match s with
  | EmptyString => []
  | String c s' => JStr (String c EmptyString) :: chars s'
  end.

(** The items a [for] loop draws from a value. *)
Definition iterate (v : json) : result (list json) :=
  match v with
  | JList l => Ok l
  | JDict kv => Ok (map (fun p => JStr (fst p)) kv)
  | JStr s => Ok (chars s)
  | _ => Raise TypeError
  end.

(** [roles.keys()] *)
Definition keys (v : json) : result (list string) :=
  match v with
  | JDict kv => Ok (map fst kv)
  | _ => Raise AttributeError
  end.

(** [for x in l: acc = body(x, acc)] for a body without requests. *)
Fixpoint for_pure {A S} (l : list A) (body : A -> S -> result S) (acc : S)
    : result S :=
  match l with
  | [] => Ok acc
  | x :: rest => rbind (body x acc) (for_pure rest body)
  end.

(** The body of the innermost loop of [get_account_details] (lines
    219-225). *)
Definition scan_record (flag : bool) (n : nat) (key : string) (t_dict : json)
    (L : locals) : result locals :=
  rbind (subscript t_dict "id") (fun id =>
  rbind (if eq_int id 11
         then rbind (array_set n key (group_assoc L)) (fun g =>
              Ok {| num_articles := num_articles L;
                    num_projects := num_projects L;
                    num_collections := num_collections L;
                    admin_flag := admin_flag L;
                    reviewer_flag := reviewer_flag L;
                    group_assoc := g |})
         else Ok L) (fun L1 =>
  if flag then
    rbind (if eq_int id 2
           then rbind (flag_set n "X" (admin_flag L1)) (fun a =>
                Ok {| num_articles := num_articles L1;
                      num_projects := num_projects L1;
                      num_collections := num_collections L1;
                      admin_flag := a;
                      reviewer_flag := reviewer_flag L1;
                      group_assoc := group_assoc L1 |})
           else Ok L1) (fun L2 =>
    if eq_int id 49
    then rbind (flag_set n "X" (reviewer_flag L2)) (fun r =>
         Ok {| num_articles := num_articles L2;
               num_projects := num_projects L2;
               num_collections := num_collections L2;
               admin_flag := admin_flag L2;
               reviewer_flag := r;
               group_assoc := group_assoc L2 |})
    else Ok L2)
  else Ok L1)).

(** Lines 217-225: the scan of one account's role structure. *)
Definition scan_roles (flag : bool) (n : nat) (roles : json) (L : locals)
    : result locals :=
  rbind (keys roles) (fun ks =>
  for_pure ks (fun key L1 =>
    rbind (subscript roles key) (fun records =>
    rbind (iterate records) (fun items =>
    for_pure items (scan_record flag n key) L1))) L).

(** Lines 235-238, one turn: every entry of [group_assoc] has the
    group's stringified id replaced by its name. *)
Definition resolve_group (g : Z * string) (group_assoc : list string)
    : list string :=
  map (fun sub => replace (str_of_Z (fst g)) (snd g) sub) group_assoc.

Section Client.

(** The remote side: what [redata_request] gets for a request, given the
    exchanges made so far. *)
Variable server : list event -> request -> outcome.

Local Open Scope py_scope.

(** [redata_request(method, url, headers, params=params)]: the exchange
    is recorded, the body is returned or [HTTPError] raised. *)
Definition redata_request (m : method) (url : string)
    (hdrs : list (string * string)) (params : option (list (string * json)))
    : M json :=
  fun w =>
    let rq := mkRequest m url hdrs params in
    let out := server (w_trace w) rq in
    let w' := {| w_trace := w_trace w ++ [mkEvent rq out];
                 w_log := w_log w;
                 w_stdin := w_stdin w |} in
    match out with
    | Returned body => (Ok body, w')
    | Failed => (Raise HTTPError, w')
    end.

Variable self : FigshareInstituteAdmin.

Definition get_articles : M DataFrame :=
  let url := endpoint self "articles" true in
  let params := [("page", JInt 1); ("page_size", JInt 1000)] in
  articles <- redata_request GET url (headers self) (Some params) ;;
  articles_df <- lift (pd_DataFrame articles) ;;
  ret articles_df.

Definition get_user_articles (account_id : Z) : M DataFrame :=
  let url := endpoint self "articles" false in
  let params := [("page", JInt 1); ("page_size", JInt 1000);
                 ("impersonate", JInt account_id)] in
  user_articles <- redata_request GET url (headers self) (Some params) ;;
  user_articles_df <- lift (pd_DataFrame user_articles) ;;
  ret user_articles_df.

Definition get_user_projects (account_id : Z) : M DataFrame :=
  let url := endpoint self "projects" false in
  let params := [("page", JInt 1); ("page_size", JInt 1000);
                 ("impersonate", JInt account_id)] in
  user_projects <- redata_request GET url (headers self) (Some params) ;;
  user_projects_df <- lift (pd_DataFrame user_projects) ;;
  ret user_projects_df.

Definition get_user_collections (account_id : Z) : M DataFrame :=
  let url := endpoint self "collections" false in
  let params := [("page", JInt 1); ("page_size", JInt 1000);
                 ("impersonate", JInt account_id)] in
  user_collections <- redata_request GET url (headers self) (Some params) ;;
  user_collections_df <- lift (pd_DataFrame user_collections) ;;
  ret user_collections_df.

Definition get_groups : M DataFrame :=
  let url := endpoint self "groups" true in
  groups <- redata_request GET url (headers self) None ;;
  groups_df <- lift (pd_DataFrame groups) ;;
  ret groups_df.

(** Lines 154-156: the labels of the rows matched by each filter in
    turn. *)
Definition collect_drop_index (accounts_df : DataFrame) (filters : list string)
    : result (list nat) :=
  for_pure filters (fun ia drop_index =>
    rbind (df_getitem "email" accounts_df) (fun emails =>
    rbind (str_contains ia emails) (fun mask =>
    Ok (drop_index ++ df_index (df_where mask accounts_df))))) [].

Definition get_account_list : M DataFrame :=
  let url := endpoint self "accounts" true in
  let params := [("page", JInt 1); ("page_size", JInt 1000)] in
  accounts <- redata_request GET url (headers self) (Some params) ;;
  accounts_df <- lift (pd_DataFrame accounts) ;;
  accounts_df <- lift (df_drop_columns "institution_id" accounts_df) ;;
  if ignore_admin self then
    log_info "Excluding administrative and test accounts" ;;;
    filters <- lift (match admin_filter self with
                     | Some fs => Ok fs
                     | None => Raise TypeError
                     end) ;;
    drop_index <- lift (collect_drop_index accounts_df filters) ;;
    accounts_df <- lift (df_drop drop_index accounts_df) ;;
    ret (df_reset_index accounts_df)
  else ret accounts_df.

Definition get_account_group_roles (account_id : Z) : M json :=
  let url := endpoint self ("roles/" +:+ str_of_Z account_id) true in
  roles <- redata_request GET url (headers self) None ;;
  ret roles.

(** One of the three guarded fetches of lines 199-215. *)
Definition count_or_warn (fetch : Z -> M DataFrame) (what : string)
    (n : nat) (account_id : Z) (counts : list Z) : M (list Z) :=
  try_except_HTTPError
    (df <- fetch account_id ;;
     lift (array_set n (Z.of_nat (shape0 df)) counts))
    (log_warning ("Unable to retrieve " +:+ what +:+ " for : "
                  +:+ str_of_Z account_id) ;;;
     ret counts).

(** Lines 197-225: the body of the loop over the accounts. *)
Definition account_body (flag : bool) (item : nat * Z) (L : locals) : M locals :=
  let '(n, account_id) := item in
  roles <- get_account_group_roles account_id ;;
  arts <- count_or_warn get_user_articles "articles" n account_id
            (num_articles L) ;;
  projs <- count_or_warn get_user_projects "projects" n account_id
             (num_projects L) ;;
  colls <- count_or_warn get_user_collections "collections" n account_id
             (num_collections L) ;;
  lift (scan_roles flag n roles
          {| num_articles := arts;
             num_projects := projs;
             num_collections := colls;
             admin_flag := admin_flag L;
             reviewer_flag := reviewer_flag L;
             group_assoc := group_assoc L |}).

Definition init_locals (flag : bool) (n_accounts : nat) : locals :=
  {| num_articles := repeat 0 n_accounts;
     num_projects := repeat 0 n_accounts;
     num_collections := repeat 0 n_accounts;
     admin_flag := if flag then Some (repeat "" n_accounts) else None;
     reviewer_flag := if flag then Some (repeat "" n_accounts) else None;
     group_assoc := repeat "N/A" n_accounts |}.

(** Lines 231-233. *)
Definition attach_flags (flag : bool) (L : locals) (df : DataFrame)
    : result DataFrame :=
  if flag then
    rbind (match admin_flag L with
           | Some a => Ok a
           | None => Raise UnboundLocalError
           end) (fun a =>
    rbind (df_setitem "Admin" (map JStr a) df) (fun df1 =>
    rbind (match reviewer_flag L with
           | Some r => Ok r
           | None => Raise UnboundLocalError
           end) (fun r =>
    df_setitem "Reviewer" (map JStr r) df1)))
  else Ok df.

(** Lines 235-238. *)
Definition resolve_groups (groups : list (Z * string)) (group_assoc : list string)
    : M (list string) :=
  for_each groups (fun g assoc_now =>
    log_info (str_of_Z (fst g) +:+ " - " +:+ snd g) ;;;
    ret (resolve_group g assoc_now)) group_assoc.

Definition get_account_details (flag : bool) : M DataFrame :=
  accounts_df <- get_account_list ;;
  let n_accounts := shape0 accounts_df in
  groups_df <- get_groups ;;
  let L0 := init_locals flag n_accounts in
  id_cells <- lift (df_getitem "id" accounts_df) ;;
  ids <- lift (mapM as_int id_cells) ;;
  L <- for_each (combine (seq 0 n_accounts) ids) (account_body flag) L0 ;;
  accounts_df <- lift (df_setitem "Articles" (map JInt (num_articles L))
                         accounts_df) ;;
  accounts_df <- lift (df_setitem "Projects" (map JInt (num_projects L))
                         accounts_df) ;;
  accounts_df <- lift (df_setitem "Collections" (map JInt (num_collections L))
                         accounts_df) ;;
  accounts_df <- lift (attach_flags flag L accounts_df) ;;
  group_ids <- lift (rbind (df_getitem "id" groups_df) (mapM as_int)) ;;
  group_names <- lift (rbind (df_getitem "name" groups_df) (mapM as_str)) ;;
  group_assoc <- resolve_groups (combine group_ids group_names) (group_assoc L) ;;
  accounts_df <- lift (df_setitem "Group" (map JStr group_assoc) accounts_df) ;;
  ret accounts_df.

Definition get_curation_list (article_id : option Z) : M DataFrame :=
  let url := endpoint self "reviews" true in
  let params := [("offset", JInt 0); ("limit", JInt 1000)] in
  let params := match article_id with
                | Some a => params ++ [("article_id", JInt a)]
                | None => params
                end in
  curation_list <- redata_request GET url (headers self) (Some params) ;;
  curation_df <- lift (pd_DataFrame curation_list) ;;
  ret curation_df.

Definition get_curation_details (curation_id : Z) : M json :=
  let url := endpoint self ("review/" +:+ str_of_Z curation_id) true in
  curation_details <- redata_request GET url (headers self) None ;;
  ret curation_details.

Definition get_curation_comments (curation_id : Z) : M json :=
  let url := endpoint self ("review/" +:+ str_of_Z curation_id +:+ "/comments")
               true in
  curation_comments <- redata_request GET url (headers self) None ;;
  ret curation_comments.

Definition doi_check (article_id : Z) : M (bool * json) :=
  let url := endpoint self ("articles/" +:+ str_of_Z article_id) false in
  article_details <- redata_request GET url (headers self) None ;;
  doi <- lift (subscript article_details "doi") ;;
  let check := if truthy doi then true else false in
  doi' <- lift (subscript article_details "doi") ;;
  ret (check, doi').

(** [f"{v}"] for the values a DOI field can hold. *)
Definition format_json (v : json) : result string :=
  match v with
  | JStr s => Ok s
  | JInt z => Ok (str_of_Z z)
  | JNull => Ok "None"
  | JBool true => Ok "True"
  | JBool false => Ok "False"
  | _ => Raise OutOfModel
  end.

Definition reserve_doi (article_id : Z) : M json :=
  let url := endpoint self
               ("articles/" +:+ str_of_Z article_id +:+ "/reserve_doi") false in
  checked <- doi_check article_id ;;
  let '(doi_check, doi_string) := checked in
  if doi_check then
    log_info "DOI already reserved! Skipping... " ;;;
    ret doi_string
  else
    log_info "PROMPT: DOI reservation has not occurred! Do you wish to reserve?" ;;;
    src_input <- input "PROMPT: Type 'Yes'/'yes'. Anything else will skip : " ;;
    log_info ("RESPONSE: " +:+ src_input) ;;;
    if String.eqb (lower src_input) "yes" then
      log_info "Reserving DOI ... " ;;;
      response <- redata_request POST url (headers self) None ;;
      minted <- lift (subscript response "doi") ;;
      text <- lift (format_json minted) ;;
      log_info ("DOI minted : " +:+ text) ;;;
      minted' <- lift (subscript response "doi") ;;
      ret minted'
    else
      log_warning "Skipping... " ;;;
      ret doi_string.

End Client.

(** ** Vocabulary of the statements *)

(** The requests the methods build. *)
Definition page_params : list (string * json) :=
  [("page", JInt 1); ("page_size", JInt 1000)].

Definition institution_request (self : FigshareInstituteAdmin) (link : string)
    : request :=
  mkRequest GET (endpoint self link true) (headers self) (Some page_params).

Definition articles_request (self : FigshareInstituteAdmin) : request :=
  institution_request self "articles".

Definition accounts_request (self : FigshareInstituteAdmin) : request :=
  institution_request self "accounts".

Definition user_request (self : FigshareInstituteAdmin) (what : string)
    (account_id : Z) : request :=
  mkRequest GET (endpoint self what false) (headers self)
    (Some (page_params ++ [("impersonate", JInt account_id)])).

Definition groups_request (self : FigshareInstituteAdmin) : request :=
  mkRequest GET (endpoint self "groups" true) (headers self) None.

Definition roles_request (self : FigshareInstituteAdmin) (account_id : Z)
    : request :=
  mkRequest GET (endpoint self ("roles/" +:+ str_of_Z account_id) true)
    (headers self) None.

Definition curation_request (self : FigshareInstituteAdmin)
    (article_id : option Z) : request :=
  mkRequest GET (endpoint self "reviews" true) (headers self)
    (Some ([("offset", JInt 0); ("limit", JInt 1000)] ++
           match article_id with
           | Some a => [("article_id", JInt a)]
           | None => []
           end)).

Definition article_request (self : FigshareInstituteAdmin) (article_id : Z)
    : request :=
  mkRequest GET (endpoint self ("articles/" +:+ str_of_Z article_id) false)
    (headers self) None.

Definition reserve_request (self : FigshareInstituteAdmin) (article_id : Z)
    : request :=
  mkRequest POST
    (endpoint self ("articles/" +:+ str_of_Z article_id +:+ "/reserve_doi") false)
    (headers self) None.

(** The world after one more exchange. *)
Definition exchange (server : list event -> request -> outcome) (w : world)
    (rq : request) : world :=
  {| w_trace := w_trace w ++ [mkEvent rq (server (w_trace w) rq)];
     w_log := w_log w;
     w_stdin := w_stdin w |}.

Definition logged (w : world) (lv : level) (msg : string) : world :=
  {| w_trace := w_trace w;
     w_log := w_log w ++ [(lv, msg)];
     w_stdin := w_stdin w |}.

(** The world once [reserve_doi] has prompted and read [line]. *)
Definition prompted (w1 : world) (line : string) (rest : list string) : world :=
  {| w_trace := w_trace w1;
     w_log := w_log w1 ++
       [(INFO, "PROMPT: DOI reservation has not occurred! Do you wish to reserve?");
        (INFO, "RESPONSE: " +:+ line)];
     w_stdin := rest |}.

(** The exchanges made between two worlds of one run. *)
Definition issued (w w' : world) : list event :=
  drop (List.length (w_trace w)) (w_trace w').

Definition is_post (ev : event) : bool :=
  match rq_method (ev_request ev) with
  | POST => true
  | GET => false
  end.

Definition posts (evs : list event) : list event := List.filter is_post evs.

(** A request that carries [page = 1] and [page_size = 1000]. *)
Definition first_page_of_1000 (rq : request) : Prop :=
  exists ps, rq_params rq = Some ps /\
             assoc "page" ps = Some (JInt 1) /\
             assoc "page_size" ps = Some (JInt 1000).

(** "The method issues exactly one GET, for the first page of 1000",
    from a given world. *)
Definition one_paged_get {A} (m : M A) (w : world) : Prop :=
  exists ev, issued w (snd (m w)) = [ev] /\
             rq_method (ev_request ev) = GET /\
             first_page_of_1000 (ev_request ev).

(** ** Concrete servers for the examples *)

Definition empty_world : world := mkWorld [] [] [].

Definition doi_article (doi : json) : json :=
  JDict [("id", JInt 1); ("title", JStr "dataset"); ("doi", doi)].

(** Article 1 has a DOI, article 2 has an empty DOI field, every other
    article has a null one; a reservation mints a DOI. *)
Definition doi_server (h : list event) (rq : request) : outcome :=
  match rq_method rq with
  | POST => Returned (JDict [("doi", JStr "10.x/new")])
  | GET =>
      if String.eqb (rq_url rq) "https://api.figshare.com/v2/account/articles/1"
      then Returned (doi_article (JStr "10.x/abc"))
      else if String.eqb (rq_url rq)
                "https://api.figshare.com/v2/account/articles/2"
      then Returned (doi_article (JStr ""))
      else Returned (doi_article JNull)
  end.

Definition plain_self : FigshareInstituteAdmin := __init__ "secret" false None.

Definition console (lines : list string) : world := mkWorld [] [] lines.

(** ** Statements read literally from the specification

    Each is compared with the code below; none is assumed anywhere. *)

(** "Every resource accessor issues exactly one GET carrying page 1 and
    page size 1000", for the groups accessor. *)
Definition groups_fetch_is_paged (server : list event -> request -> outcome)
    (self : FigshareInstituteAdmin) (w : world) : Prop :=
  one_paged_get (get_groups server self) w.

(** "[doi_check] returns (true, d) for a non-empty DOI string d and
    (false, null) when the DOI field is empty or null." *)
Definition doi_check_null_when_unreserved
    (server : list event -> request -> outcome)
    (self : FigshareInstituteAdmin) (article_id : Z) (w : world) : Prop :=
  forall kv v,
    server (w_trace w) (article_request self article_id) = Returned (JDict kv) ->
    assoc "doi" kv = Some v ->
    (forall d, v = JStr d -> d <> "" ->
       fst (doi_check server self article_id w) = Ok (true, JStr d)) /\
    (v = JStr "" \/ v = JNull ->
       fst (doi_check server self article_id w) = Ok (false, JNull)).

(** "When the operator gives any other input, [reserve_doi] returns the
    prior (null) DOI without any POST." *)
Definition reserve_doi_null_on_decline
    (server : list event -> request -> outcome)
    (self : FigshareInstituteAdmin) (article_id : Z) (w : world) : Prop :=
  forall d w1 line rest,
    doi_check server self article_id w = (Ok (false, d), w1) ->
    w_stdin w = line :: rest ->
    lower line <> "yes" ->
    fst (reserve_doi server self article_id w) = Ok JNull /\
    posts (issued w (snd (reserve_doi server self article_id w))) = [].

(** Whether an e-mail address is matched by a configured filter, the way
    [str.contains] decides it, for a filter of ordinary characters and
    dots. *)
Definition matches_filter (pat email : string) : bool :=
  match re_compile pat with
  | Some p => re_search p email
  | None => false
  end.


(** *** Searching character by character

    What [re.search] computes on the characters of the Python strings,
    for a pattern of ordinary characters and dots.  A character is given
    by the bytes of its UTF-8 encoding: a first byte, which tells how
    many continuation bytes follow, and those bytes. *)

Definition continuation_bytes (first : ascii) : option nat :=
  let n := nat_of_ascii first in
  if Nat.ltb n 128 then Some 0%nat
  else if Nat.ltb n 192 then None
  else if Nat.ltb n 224 then Some 1%nat
  else if Nat.ltb n 240 then Some 2%nat
  else if Nat.ltb n 248 then Some 3%nat
  else None.

Fixpoint all_continuation (s : string) : bool :=
  match s with
  | EmptyString => true
  | String c s' => is_continuation c && all_continuation s'
  end.

Definition is_character (ch : string) : bool :=
  match ch with
  | EmptyString => false
  | String first rest =>
      match continuation_bytes first with
      | Some n => Nat.eqb (String.length rest) n && all_continuation rest
      | None => false
      end
  end.

(** The string made of the given characters. *)
Definition text (characters : list string) : string :=
  fold_right append EmptyString characters.

(** A character of the pattern against a character of the subject: the
    dot stands for every character but the newline, any other character
    for itself. *)
Definition char_matches (a b : string) : bool :=
  if String.eqb a "." then negb (String.eqb b (String newline EmptyString))
  else String.eqb a b.

Fixpoint match_characters (pat s : list string) : bool :=
  match pat, s with
  | [], _ => true
  | _ :: _, [] => false
  | a :: pat', b :: s' => char_matches a b && match_characters pat' s'
  end.

Fixpoint search_characters (pat s : list string) : bool :=
  match_characters pat s ||
  match s with
  | [] => false
  | _ :: s' => search_characters pat s'
  end.

(** The compiled form of one character of a pattern. *)
Definition compile_character (ch : string) : list pat_item :=
  match ch with
  | EmptyString => []
  | String first rest =>
      (if Ascii.eqb first "." then PAny else PChar first) ::
      map PChar (list_ascii_of_string rest)
  end.

(** A string that begins at the first byte of a character, or is
    empty. *)
Definition at_boundary (s : string) : bool :=
  match s with
  | EmptyString => true
  | String c _ => negb (is_continuation c)
  end.


(** A small institution: three accounts, two groups whose ids share a
    digit, roles for accounts 1 and 3 only, and two failing listings. *)
Definition account (id : Z) (email : string) : json :=
  JDict [("id", JInt id); ("email", JStr email); ("institution_id", JInt 7)].

Definition role (id : Z) : json :=
  JDict [("id", JInt id); ("name", JStr "role")].

Definition campus_server (h : list event) (rq : request) : outcome :=
  let url := rq_url rq in
  let who := match rq_params rq with
             | Some ps => assoc "impersonate" ps
             | None => None
             end in
  if String.eqb url "https://api.figshare.com/v2/account/institution/accounts"
  then Returned (JList [account 1 "a@x.org"; account 2 "test@x.org";
                        account 3 "b@x.org"])
  else if String.eqb url "https://api.figshare.com/v2/account/institution/groups"
  then Returned (JList [JDict [("id", JInt 1); ("name", JStr "A")];
                        JDict [("id", JInt 11); ("name", JStr "B")]])
  else if String.eqb url "https://api.figshare.com/v2/account/institution/roles/1"
  then Returned (JDict [("11", JList [role 11; role 2])])
  else if String.eqb url "https://api.figshare.com/v2/account/institution/roles/3"
  then Returned (JDict [("0", JList [role 49])])
  else if String.eqb url "https://api.figshare.com/v2/account/articles"
  then match who with
       | Some (JInt 1) => Failed
       | _ => Returned (JList [JDict []; JDict []])
       end
  else if String.eqb url "https://api.figshare.com/v2/account/projects"
  then Returned (JList [JDict [("id", JInt 5)]])
  else if String.eqb url "https://api.figshare.com/v2/account/collections"
  then match who with
       | Some (JInt 3) => Failed
       | _ => Returned (JList [])
       end
  else Failed.

Definition filtering_self : FigshareInstituteAdmin :=
  __init__ "secret" false (Some ["test"]).


(** ** Reading a role structure *)

(** A role record whose id equals [k]. *)
Definition record_has_id (k : Z) (t_dict : json) : bool :=
  match subscript t_dict "id" with
  | Ok id => eq_int id k
  | Raise _ => false
  end.

(** Some record of the collection found under one key has id [k]. *)
Definition has_role (k : Z) (records : json) : bool :=
  match iterate records with
  | Ok items => existsb (record_has_id k) items
  | Raise _ => false
  end.

Definition key_has_role (roles : json) (k : Z) (key : string) : bool :=
  match subscript roles key with
  | Ok records => has_role k records
  | Raise _ => false
  end.

Definition role_keys (roles : json) : list string :=
  match keys roles with
  | Ok ks => ks
  | Raise _ => []
  end.

(** Some record with id [k] appears somewhere in the role structure. *)
Definition holds_role (roles : json) (k : Z) : bool :=
  existsb (key_has_role roles k) (role_keys roles).

Definition later_key (roles : json) (found : option string) (key : string)
    : option string :=
  if key_has_role roles 11 key then Some key else found.

(** The last key, in iteration order, under which a record with id 11
    appears. *)
Definition curator_key (roles : json) : option string :=
  fold_left (later_key roles) (role_keys roles) None.


(** What one scan does to the locals of row [n]: the group association
    becomes [g] when there is one, and the flags in [a] and [r] are
    raised. *)
Definition mark (n : nat) (g : option string) (a r : bool) (L : locals)
    : locals :=
  {| num_articles := num_articles L;
     num_projects := num_projects L;
     num_collections := num_collections L;
     admin_flag :=
       if a then option_map (fun l => <[n := "X"]> l) (admin_flag L)
       else admin_flag L;
     reviewer_flag :=
       if r then option_map (fun l => <[n := "X"]> l) (reviewer_flag L)
       else reviewer_flag L;
     group_assoc :=
       match g with
       | Some key => <[n := key]> (group_assoc L)
       | None => group_assoc L
       end |}.

Definition or_else {A} (later earlier : option A) : option A :=
  match later with
  | Some x => Some x
  | None => earlier
  end.

(** ** One turn of the loop over the accounts *)

(** What happened for one account: its id, the role structure that was
    returned and the outcomes of the three guarded listings. *)
Record row_run : Type := mkRowRun {
  rr_id : Z;
  rr_roles : json;
  rr_articles : outcome;
  rr_projects : outcome;
  rr_collections : outcome
}.

(** The four exchanges of that turn, in the order they are made. *)
Definition row_events (self : FigshareInstituteAdmin) (r : row_run)
    : list event :=
  [mkEvent (roles_request self (rr_id r)) (Returned (rr_roles r));
   mkEvent (user_request self "articles" (rr_id r)) (rr_articles r);
   mkEvent (user_request self "projects" (rr_id r)) (rr_projects r);
   mkEvent (user_request self "collections" (rr_id r)) (rr_collections r)].

(** The count a guarded listing leaves: the number of rows returned, zero
    after an [HTTPError]. *)
Definition count_of (out : outcome) : Z :=
  match out with
  | Failed => 0
  | Returned body =>
      match pd_DataFrame body with
      | Ok df => Z.of_nat (shape0 df)
      | Raise _ => 0
      end
  end.

Definition warning_text (what : string) (account_id : Z) : string :=
  "Unable to retrieve " +:+ what +:+ " for : " +:+ str_of_Z account_id.

Definition warning_for (what : string) (account_id : Z) (out : outcome)
    : list (level * string) :=
  match out with
  | Failed => [(WARNING, warning_text what account_id)]
  | Returned _ => []
  end.

Definition row_warnings (r : row_run) : list (level * string) :=
  warning_for "articles" (rr_id r) (rr_articles r) ++
  warning_for "projects" (rr_id r) (rr_projects r) ++
  warning_for "collections" (rr_id r) (rr_collections r).

(** The provisional group association of a row: the last curator key, or
    the sentinel. *)
Definition row_group (r : row_run) : string :=
  default "N/A" (curator_key (rr_roles r)).

Definition row_flag (k : Z) (r : row_run) : string :=
  if holds_role (rr_roles r) k then "X" else "".

(** A listing whose body, when there is one, is an array of objects. *)
Definition payload_ok (out : outcome) : Prop :=
  match out with
  | Failed => True
  | Returned body => exists df, pd_DataFrame body = Ok df
  end.

(** The effect of one guarded listing on its array of counts. *)
Definition counted (n : nat) (out : outcome) (counts : list Z)
    : result (list Z) :=
  match out with
  | Failed => Ok counts
  | Returned body =>
      rbind (pd_DataFrame body) (fun df =>
      array_set n (Z.of_nat (shape0 df)) counts)
  end.

(** The world after one guarded listing. *)
Definition after_guarded (server : list event -> request -> outcome)
    (w : world) (rq : request) (what : string) (account_id : Z) : world :=
  match server (w_trace w) rq with
  | Failed =>
      logged (exchange server w rq) WARNING (warning_text what account_id)
  | Returned _ => exchange server w rq
  end.

(** The locals once the rows in [rows] are done, out of [N] accounts. *)
Definition locals_after (flag : bool) (N : nat) (rows : list row_run) : locals :=
  let todo := (N - List.length rows)%nat in
  {| num_articles := map (fun r => count_of (rr_articles r)) rows ++ repeat 0 todo;
     num_projects := map (fun r => count_of (rr_projects r)) rows ++ repeat 0 todo;
     num_collections :=
       map (fun r => count_of (rr_collections r)) rows ++ repeat 0 todo;
     admin_flag :=
       if flag then Some (map (row_flag 2) rows ++ repeat "" todo) else None;
     reviewer_flag :=
       if flag then Some (map (row_flag 49) rows ++ repeat "" todo) else None;
     group_assoc := map row_group rows ++ repeat "N/A" todo |}.

(** The final name of a provisional group association: every group in
    turn replaces its stringified id by its name. *)
Definition resolve_name (groups : list (Z * string)) (sub : string) : string :=
  fold_left (fun s g => replace (str_of_Z (fst g)) (snd g) s) groups sub.

Definition group_log (g : Z * string) : level * string :=
  (INFO, str_of_Z (fst g) +:+ " - " +:+ snd g).



(** The columns [get_account_details] sets, in the order it sets them,
    from what happened for every account. *)
Definition flag_columns (flag : bool) (done : list row_run)
    (cols : list (string * list json)) : list (string * list json) :=
  if flag then
    set_column "Reviewer" (map (fun r => JStr (row_flag 49 r)) done)
      (set_column "Admin" (map (fun r => JStr (row_flag 2 r)) done) cols)
  else cols.

Definition details_columns (flag : bool) (groups : list (Z * string))
    (done : list row_run) (cols : list (string * list json))
    : list (string * list json) :=
  set_column "Group"
    (map (fun r => JStr (resolve_name groups (row_group r))) done)
    (flag_columns flag done
       (set_column "Collections"
          (map (fun r => JInt (count_of (rr_collections r))) done)
          (set_column "Projects"
             (map (fun r => JInt (count_of (rr_projects r))) done)
             (set_column "Articles"
                (map (fun r => JInt (count_of (rr_articles r))) done)
                cols)))).

(** Every column has one cell per row label. *)
Definition rectangular (df : DataFrame) : Prop :=
  List.Forall (fun col => List.length (snd col) = shape0 df) (df_columns df).

(** The names of the columns the aggregation sets. *)
Definition new_names (flag : bool) : list string :=
  ["Articles"; "Projects"; "Collections"] ++
  (if flag then ["Admin"; "Reviewer"] else []) ++ ["Group"].




(** An account listing whose objects carry, besides the fields of an
    account, one named [Group]. *)
Definition labelled_server (h : list event) (rq : request) : outcome :=
  let url := rq_url rq in
  if String.eqb url "https://api.figshare.com/v2/account/institution/accounts"
  then Returned (JList [JDict [("id", JInt 1); ("email", JStr "a@x.org");
                               ("institution_id", JInt 7);
                               ("Group", JStr "physics")]])
  else if String.eqb url "https://api.figshare.com/v2/account/institution/groups"
  then Returned (JList [JDict [("id", JInt 5); ("name", JStr "Library")]])
  else if String.eqb url "https://api.figshare.com/v2/account/institution/roles/1"
  then Returned (JDict [])
  else Returned (JList []).


(** ** Vocabulary for whole runs *)

(** Every exchange a computation makes, whatever its result, is for a
    request satisfying [P]. *)
Definition issues_only (P : request -> Prop) {A} (m : M A) : Prop :=
  forall w, exists evs,
    w_trace (snd (m w)) = w_trace w ++ evs /\
    List.Forall (fun ev => P (ev_request ev)) evs.

(** The base URL a client built by [__init__] talks to. *)
Definition host (stage : bool) : string :=
  if stage then "https://api.figsh.com/v2/account/"
  else "https://api.figshare.com/v2/account/".

(** The headers a client built by [__init__] sends. *)
Definition sent_headers (token : string) : list (string * string) :=
  ("Content-Type", "application/json") ::
  (if String.eqb token "" then [] else [("Authorization", "token " +:+ token)]).

(** A request of a client built with [token] and [stage]: it goes below
    the chosen base URL and carries the client's headers. *)
Definition addressed (token : string) (stage : bool) (rq : request) : Prop :=
  String.prefix (host stage) (rq_url rq) = true /\
  rq_headers rq = sent_headers token.

Definition read_request (token : string) (stage : bool) (rq : request) : Prop :=
  rq_method rq = GET /\ addressed token stage rq.

(** A server with nothing to list. *)
Definition empty_server (h : list event) (rq : request) : outcome :=
  Returned (JList []).


(** A server that is down. *)
Definition down_server (h : list event) (rq : request) : outcome := Failed.

(** A server whose group listing alone is down. *)
Definition groups_down_server (h : list event) (rq : request) : outcome :=
  if String.eqb (rq_url rq)
       "https://api.figshare.com/v2/account/institution/groups"
  then Failed else campus_server h rq.

(** Articles without DOI, and a reservation answered without one. *)
Definition silent_server (h : list event) (rq : request) : outcome :=
  match rq_method rq with
  | POST => Returned (JDict [("message", JStr "accepted")])
  | GET => Returned (doi_article JNull)
  end.

(** A listing accessor [m], whose request is [rq]: it raises [HTTPError]
    exactly when the transport does, and turns an array of objects into a
    table with one row per object, labelled from zero, whose columns are
    the keys of the objects in order of first appearance. *)
Definition tabulates (server : list event -> request -> outcome)
    (m : M DataFrame) (rq : request) : Prop :=
  forall w,
    (fst (m w) = Raise HTTPError <-> server (w_trace w) rq = Failed) /\
    forall recs,
      server (w_trace w) rq = Returned (JList (map JDict recs)) ->
      exists df,
        fst (m w) = Ok df /\
        shape0 df = List.length recs /\
        df_index df = seq 0 (List.length recs) /\
        map fst (df_columns df) = keys_in_order recs /\
        rectangular df.

(** * Properties *)

Arguments endpoint : simpl never.
Arguments str_of_Z : simpl never.

(** ** The monad *)

Lemma bind_Ok {A B} (m : M A) (k : A -> M B) w a w1 :
  m w = (Ok a, w1) -> bind m k w = k a w1.
Proof. unfold bind. intros ->. reflexivity. Qed.

Lemma bind_Raise {A B} (m : M A) (k : A -> M B) w e w1 :
  m w = (Raise e, w1) -> bind m k w = (Raise e, w1).
Proof. unfold bind. intros ->. reflexivity. Qed.

Lemma bind_Ok_inv {A B} (m : M A) (k : A -> M B) w b w' :
  bind m k w = (Ok b, w') ->
  exists a w1, m w = (Ok a, w1) /\ k a w1 = (Ok b, w').
Proof.
  unfold bind. destruct (m w) as [[a|e] w1]; intros H.
  - exists a, w1. split; [reflexivity | exact H].
  - discriminate H.
Qed.

Lemma lift_Ok_inv {A} (r : result A) w a w' :
  lift r w = (Ok a, w') -> r = Ok a /\ w' = w.
Proof. unfold lift. intros H. injection H as -> ->. split; reflexivity. Qed.

Lemma ret_inv {A} (a b : A) w w' :
  ret a w = (Ok b, w') -> b = a /\ w' = w.
Proof. unfold ret. intros H. injection H as -> ->. split; reflexivity. Qed.

Lemma rbind_Ok_inv {A B} (r : result A) (k : A -> result B) b :
  rbind r k = Ok b -> exists a, r = Ok a /\ k a = Ok b.
Proof.
  destruct r as [a|e]; simpl; intros H; [eauto | discriminate H].
Qed.

Lemma issued_app w w' evs :
  w_trace w' = w_trace w ++ evs -> issued w w' = evs.
Proof. unfold issued. intros ->. apply drop_app_length. Qed.

Section Accessors.

Variable server : list event -> request -> outcome.
Variable self : FigshareInstituteAdmin.

(** *** One exchange *)

Lemma redata_request_run m url hdrs params w :
  redata_request server m url hdrs params w =
  (match server (w_trace w) (mkRequest m url hdrs params) with
   | Returned body => Ok body
   | Failed => Raise HTTPError
   end,
   exchange server w (mkRequest m url hdrs params)).
Proof.
  unfold redata_request, exchange.
  destruct (server (w_trace w) (mkRequest m url hdrs params)); reflexivity.
Qed.

Lemma issued_exchange w rq :
  issued w (exchange server w rq) = [mkEvent rq (server (w_trace w) rq)].
Proof. apply issued_app. reflexivity. Qed.

(** A method that makes one request and then only reshapes the body. *)
Lemma fetch_then_reshape {A} (rq : request) (reshape : json -> result A) w :
  let run :=
    bind (redata_request server (rq_method rq) (rq_url rq) (rq_headers rq)
            (rq_params rq))
         (fun body => bind (lift (reshape body)) ret) w in
  snd run = exchange server w rq /\
  fst run = match server (w_trace w) rq with
            | Returned body => reshape body
            | Failed => Raise HTTPError
            end.
Proof.
  destruct rq as [m url hdrs params]. simpl.
  unfold bind. rewrite redata_request_run.
  destruct (server (w_trace w) (mkRequest m url hdrs params)) as [body|];
    simpl; [| split; reflexivity].
  unfold lift, ret. destruct (reshape body); split; reflexivity.
Qed.

Lemma get_user_articles_run account_id w :
  snd (get_user_articles server self account_id w) =
    exchange server w (user_request self "articles" account_id) /\
  fst (get_user_articles server self account_id w) =
    match server (w_trace w) (user_request self "articles" account_id) with
    | Returned body => pd_DataFrame body
    | Failed => Raise HTTPError
    end.
Proof. exact (fetch_then_reshape (user_request self "articles" account_id) pd_DataFrame w). Qed.

Lemma get_user_projects_run account_id w :
  snd (get_user_projects server self account_id w) =
    exchange server w (user_request self "projects" account_id) /\
  fst (get_user_projects server self account_id w) =
    match server (w_trace w) (user_request self "projects" account_id) with
    | Returned body => pd_DataFrame body
    | Failed => Raise HTTPError
    end.
Proof. exact (fetch_then_reshape (user_request self "projects" account_id) pd_DataFrame w). Qed.

Lemma get_user_collections_run account_id w :
  snd (get_user_collections server self account_id w) =
    exchange server w (user_request self "collections" account_id) /\
  fst (get_user_collections server self account_id w) =
    match server (w_trace w) (user_request self "collections" account_id) with
    | Returned body => pd_DataFrame body
    | Failed => Raise HTTPError
    end.
Proof. exact (fetch_then_reshape (user_request self "collections" account_id) pd_DataFrame w). Qed.

Lemma get_articles_run w :
  snd (get_articles server self w) = exchange server w (articles_request self) /\
  fst (get_articles server self w) =
    match server (w_trace w) (articles_request self) with
    | Returned body => pd_DataFrame body
    | Failed => Raise HTTPError
    end.
Proof. exact (fetch_then_reshape (articles_request self) pd_DataFrame w). Qed.

Lemma get_groups_run w :
  snd (get_groups server self w) = exchange server w (groups_request self) /\
  fst (get_groups server self w) =
    match server (w_trace w) (groups_request self) with
    | Returned body => pd_DataFrame body
    | Failed => Raise HTTPError
    end.
Proof. exact (fetch_then_reshape (groups_request self) pd_DataFrame w). Qed.

Lemma get_curation_list_run article_id w :
  snd (get_curation_list server self article_id w) =
    exchange server w (curation_request self article_id) /\
  fst (get_curation_list server self article_id w) =
    match server (w_trace w) (curation_request self article_id) with
    | Returned body => pd_DataFrame body
    | Failed => Raise HTTPError
    end.
Proof.
  destruct article_id as [a|].
  - exact (fetch_then_reshape (curation_request self (Some a)) pd_DataFrame w).
  - exact (fetch_then_reshape (curation_request self None) pd_DataFrame w).
Qed.

End Accessors.

(** ** Resource accessors *)

Section AccessorClaims.

Variable server : list event -> request -> outcome.
Variable self : FigshareInstituteAdmin.

Let answered (w : world) (rq : request) : list event :=
  [mkEvent rq (server (w_trace w) rq)].

Lemma get_account_list_world w :
  w_trace (snd (get_account_list server self w)) =
    w_trace w ++ answered w (accounts_request self) /\
  w_stdin (snd (get_account_list server self w)) = w_stdin w.
Proof.
  unfold get_account_list, bind. rewrite redata_request_run.
  change (mkRequest GET (endpoint self "accounts" true) (headers self)
            (Some [("page", JInt 1); ("page_size", JInt 1000)]))
    with (accounts_request self).
  unfold lift, ret, log_info, log_record.
  destruct (server (w_trace w) (accounts_request self)) as [body|];
    [| split; reflexivity].
  destruct (pd_DataFrame body) as [raw|e]; [| split; reflexivity].
  destruct (df_drop_columns "institution_id" raw) as [acc0|e];
    [| split; reflexivity].
  destruct (ignore_admin self); [| split; reflexivity].
  destruct (admin_filter self) as [fs|]; [| split; reflexivity].
  destruct (collect_drop_index acc0 fs) as [di|e]; [| split; reflexivity].
  destruct (df_drop di acc0); split; reflexivity.
Qed.

(** C9 (as the code has it).  Every listing accessor issues exactly one
    request, a GET.  The article, user-article, user-project,
    user-collection and account listings carry [page = 1] and
    [page_size = 1000] (the three user listings also [impersonate]); the
    group listing carries no parameters at all, and the curation listing
    carries [offset = 0] and [limit = 1000] (plus the article id when one
    is given) instead of a page number. *)
Theorem accessors_issue_one_get (w : world) (account_id : Z)
    (article_id : option Z) :
  (issued w (snd (get_articles server self w)) =
     answered w (articles_request self) /\
   issued w (snd (get_user_articles server self account_id w)) =
     answered w (user_request self "articles" account_id) /\
   issued w (snd (get_user_projects server self account_id w)) =
     answered w (user_request self "projects" account_id) /\
   issued w (snd (get_user_collections server self account_id w)) =
     answered w (user_request self "collections" account_id) /\
   issued w (snd (get_groups server self w)) =
     answered w (groups_request self) /\
   issued w (snd (get_account_list server self w)) =
     answered w (accounts_request self) /\
   issued w (snd (get_curation_list server self article_id w)) =
     answered w (curation_request self article_id)) /\
  (rq_method (articles_request self) = GET /\
   rq_method (user_request self "articles" account_id) = GET /\
   rq_method (user_request self "projects" account_id) = GET /\
   rq_method (user_request self "collections" account_id) = GET /\
   rq_method (groups_request self) = GET /\
   rq_method (accounts_request self) = GET /\
   rq_method (curation_request self article_id) = GET) /\
  (first_page_of_1000 (articles_request self) /\
   first_page_of_1000 (user_request self "articles" account_id) /\
   first_page_of_1000 (user_request self "projects" account_id) /\
   first_page_of_1000 (user_request self "collections" account_id) /\
   first_page_of_1000 (accounts_request self)) /\
  rq_params (groups_request self) = None /\
  rq_params (curation_request self article_id) =
    Some ([("offset", JInt 0); ("limit", JInt 1000)] ++
          match article_id with
          | Some a => [("article_id", JInt a)]
          | None => []
          end).
Proof.
  split; [| split; [| split; [| split]]].
  - repeat split.
    + rewrite (proj1 (get_articles_run server self w)). apply issued_exchange.
    + rewrite (proj1 (get_user_articles_run server self account_id w)).
      apply issued_exchange.
    + rewrite (proj1 (get_user_projects_run server self account_id w)).
      apply issued_exchange.
    + rewrite (proj1 (get_user_collections_run server self account_id w)).
      apply issued_exchange.
    + rewrite (proj1 (get_groups_run server self w)). apply issued_exchange.
    + apply issued_app. apply get_account_list_world.
    + rewrite (proj1 (get_curation_list_run server self article_id w)).
      apply issued_exchange.
  - repeat split.
  - repeat split; eexists; (split; [reflexivity | split; reflexivity]).
  - reflexivity.
  - reflexivity.
Qed.

(** *** DOI check *)

Lemma doi_check_run article_id w :
  snd (doi_check server self article_id w) =
    exchange server w (article_request self article_id) /\
  fst (doi_check server self article_id w) =
    match server (w_trace w) (article_request self article_id) with
    | Returned details =>
        rbind (subscript details "doi") (fun doi => Ok (truthy doi, doi))
    | Failed => Raise HTTPError
    end.
Proof.
  unfold doi_check, bind. rewrite redata_request_run.
  fold (article_request self article_id).
  destruct (server (w_trace w) (article_request self article_id)) as [details|];
    [| split; reflexivity].
  unfold lift, ret.
  destruct (subscript details "doi") as [doi|e]; simpl; [| split; reflexivity].
  destruct (truthy doi); split; reflexivity.
Qed.

(** C6 (as the code has it).  When the fetched article is an object whose
    DOI field holds [v], [doi_check] returns the pair of [bool(v)] and [v]
    itself: (true, d) for a non-empty string d, (false, null) for null, and
    (false, "") -- the empty string, not null -- for an empty DOI field. *)
Theorem doi_check_spec (article_id : Z) (w : world)
    (kv : list (string * json)) (v : json) :
  server (w_trace w) (article_request self article_id) = Returned (JDict kv) ->
  assoc "doi" kv = Some v ->
  doi_check server self article_id w =
    (Ok (truthy v, v), exchange server w (article_request self article_id)) /\
  (forall d, v = JStr d -> d <> "" -> truthy v = true) /\
  (v = JNull -> truthy v = false) /\
  (v = JStr "" -> truthy v = false).
Proof.
  intros Hs Hdoi.
  destruct (doi_check_run article_id w) as [Hw Hr].
  rewrite Hs in Hr. simpl in Hr. rewrite Hdoi in Hr. simpl in Hr.
  split.
  - destruct (doi_check server self article_id w) as [r w']. simpl in *.
    subst. reflexivity.
  - split; [| split].
    + intros d -> Hd. simpl. destruct (String.eqb_spec d ""); [contradiction | reflexivity].
    + intros ->. reflexivity.
    + intros ->. reflexivity.
Qed.

(** *** DOI reservation *)

Lemma doi_check_frame article_id w r w1 :
  doi_check server self article_id w = (r, w1) ->
  w1 = exchange server w (article_request self article_id).
Proof.
  intros H. destruct (doi_check_run article_id w) as [Hw _].
  rewrite H in Hw. exact Hw.
Qed.

Lemma posts_answered_get w rq :
  rq_method rq = GET -> posts (answered w rq) = [].
Proof. intros H. unfold posts, answered, is_post. simpl. rewrite H. reflexivity. Qed.

(** What [reserve_doi] does, by cases on the check and on the answer at
    the prompt. *)
Lemma reserve_doi_reserved article_id w d w1 :
  doi_check server self article_id w = (Ok (true, d), w1) ->
  reserve_doi server self article_id w =
    (Ok d, logged w1 INFO "DOI already reserved! Skipping... ").
Proof.
  intros Hc. unfold reserve_doi. rewrite (bind_Ok _ _ _ _ _ Hc). reflexivity.
Qed.

Lemma reserve_doi_failed_check article_id w e w1 :
  doi_check server self article_id w = (Raise e, w1) ->
  reserve_doi server self article_id w = (Raise e, w1).
Proof.
  intros Hc. unfold reserve_doi. rewrite (bind_Raise _ _ _ _ _ Hc). reflexivity.
Qed.

Lemma reserve_doi_no_input article_id w d w1 :
  doi_check server self article_id w = (Ok (false, d), w1) ->
  w_stdin w = [] ->
  reserve_doi server self article_id w =
    (Raise EOFError,
     logged w1 INFO
       "PROMPT: DOI reservation has not occurred! Do you wish to reserve?").
Proof.
  intros Hc Hin. unfold reserve_doi. rewrite (bind_Ok _ _ _ _ _ Hc).
  rewrite (doi_check_frame _ _ _ _ Hc).
  unfold bind, log_info, log_record, input, logged.
  simpl. rewrite Hin. reflexivity.
Qed.

Lemma reserve_doi_declined article_id w d w1 line rest :
  doi_check server self article_id w = (Ok (false, d), w1) ->
  w_stdin w = line :: rest ->
  String.eqb (lower line) "yes" = false ->
  reserve_doi server self article_id w =
    (Ok d, logged (prompted w1 line rest) WARNING "Skipping... ").
Proof.
  intros Hc Hin Hno. unfold reserve_doi. rewrite (bind_Ok _ _ _ _ _ Hc).
  rewrite (doi_check_frame _ _ _ _ Hc). unfold bind, log_info, log_record, input.
  simpl. rewrite Hin. simpl. rewrite Hno.
  unfold log_warning, log_record, ret, logged, prompted. simpl.
  repeat rewrite <- app_assoc. reflexivity.
Qed.

Lemma reserve_doi_accepted article_id w d w1 line rest :
  doi_check server self article_id w = (Ok (false, d), w1) ->
  w_stdin w = line :: rest ->
  String.eqb (lower line) "yes" = true ->
  exists w',
    w_trace w' =
      w_trace w1 ++
      [mkEvent (reserve_request self article_id)
         (server (w_trace w1) (reserve_request self article_id))] /\
    w_stdin w' = rest /\
    snd (reserve_doi server self article_id w) = w' /\
    fst (reserve_doi server self article_id w) =
      match server (w_trace w1) (reserve_request self article_id) with
      | Returned response =>
          rbind (subscript response "doi") (fun minted =>
          rbind (format_json minted) (fun _ => Ok minted))
      | Failed => Raise HTTPError
      end.
Proof.
  intros Hc Hin Hyes. unfold reserve_doi. rewrite (bind_Ok _ _ _ _ _ Hc).
  rewrite (doi_check_frame _ _ _ _ Hc). unfold bind, log_info, log_record, input.
  simpl. rewrite Hin. simpl. rewrite Hyes. simpl.
  rewrite redata_request_run. fold (reserve_request self article_id).
  unfold exchange. simpl.
  destruct (server (w_trace w ++
             [mkEvent (article_request self article_id)
                (server (w_trace w) (article_request self article_id))])
            (reserve_request self article_id)) as [response|].
  - unfold lift. destruct (subscript response "doi") as [minted|e]; simpl.
    + destruct (format_json minted); simpl;
        refine (ex_intro _ _ (conj _ (conj _ (conj eq_refl _)))); reflexivity.
    + refine (ex_intro _ _ (conj _ (conj _ (conj eq_refl _)))); reflexivity.
  - refine (ex_intro _ _ (conj _ (conj _ (conj eq_refl _)))); reflexivity.
Qed.

Lemma doi_check_unreserved_falsy article_id w d w1 :
  doi_check server self article_id w = (Ok (false, d), w1) -> truthy d = false.
Proof.
  intros Hc. destruct (doi_check_run article_id w) as [_ Hr].
  rewrite Hc in Hr. simpl in Hr.
  destruct (server (w_trace w) (article_request self article_id)) as [details|];
    [| discriminate Hr].
  destruct (subscript details "doi") as [doi|e]; simpl in Hr; [| discriminate Hr].
  injection Hr as Hb Hd. subst d. symmetry. exact Hb.
Qed.

Lemma issued_after_check article_id w r w1 (w' : world) evs :
  doi_check server self article_id w = (r, w1) ->
  w_trace w' = w_trace w1 ++ evs ->
  posts (issued w w') = posts evs.
Proof.
  intros Hc Hw'. rewrite (doi_check_frame _ _ _ _ Hc) in Hw'.
  rewrite (issued_app w w' (answered w (article_request self article_id) ++ evs)).
  - unfold posts. rewrite List.filter_app. reflexivity.
  - rewrite Hw'. simpl. rewrite <- app_assoc. reflexivity.
Qed.

(** C3 (as the code has it).  [reserve_doi] issues the reservation POST
    exactly when the check reports the article unreserved and the line
    typed at the prompt, lowercased, is "yes"; it is then the only POST.
    On a reserved article it returns the existing DOI and issues no POST.
    On any other answer it logs the warning, issues no POST and returns
    the DOI value that the check reported -- a falsy value, which is null
    or, for an article whose DOI field is empty, the empty string. *)
Theorem reserve_doi_spec (article_id : Z) (w : world) :
  let run := reserve_doi server self article_id w in
  (posts (issued w (snd run)) <> [] <->
   exists d w1 line rest,
     doi_check server self article_id w = (Ok (false, d), w1) /\
     w_stdin w = line :: rest /\ lower line = "yes") /\
  (posts (issued w (snd run)) = [] \/
   exists out,
     posts (issued w (snd run)) = [mkEvent (reserve_request self article_id) out]) /\
  (forall d w1,
     doi_check server self article_id w = (Ok (true, d), w1) ->
     fst run = Ok d /\ posts (issued w (snd run)) = []) /\
  (forall d w1 line rest,
     doi_check server self article_id w = (Ok (false, d), w1) ->
     w_stdin w = line :: rest ->
     lower line <> "yes" ->
     fst run = Ok d /\ truthy d = false /\
     In (WARNING, "Skipping... ") (w_log (snd run)) /\
     posts (issued w (snd run)) = []) /\
  (forall d w1 line rest response minted,
     doi_check server self article_id w = (Ok (false, d), w1) ->
     w_stdin w = line :: rest ->
     lower line = "yes" ->
     server (w_trace w1) (reserve_request self article_id) = Returned response ->
     subscript response "doi" = Ok (JStr minted) ->
     fst run = Ok (JStr minted)).
Proof.
  intros run. subst run.
  destruct (doi_check server self article_id w) as [[[[|] d]|e] w1] eqn:Hc.
  - (* already reserved *)
    rewrite (reserve_doi_reserved _ _ _ _ Hc). simpl.
    assert (Hp : posts (issued w (logged w1 INFO "DOI already reserved! Skipping... ")) = []).
    { rewrite (issued_after_check _ _ _ _ _ [] Hc); [reflexivity |].
      simpl. rewrite app_nil_r. reflexivity. }
    rewrite Hp. split; [| split; [| split; [| split]]].
    + split; [intros H; contradiction |].
      intros (d' & w1' & line & rest & H & _). discriminate H.
    + left. reflexivity.
    + intros d' w1' H. injection H as <- _. split; reflexivity.
    + intros d' w1' line rest H. discriminate H.
    + intros d' w1' line rest response minted H. discriminate H.
  - (* unreserved *)
    destruct (w_stdin w) as [|line rest] eqn:Hin.
    + rewrite (reserve_doi_no_input _ _ _ _ Hc Hin). simpl.
      assert (Hp : posts (issued w (logged w1 INFO
                "PROMPT: DOI reservation has not occurred! Do you wish to reserve?")) = []).
      { rewrite (issued_after_check _ _ _ _ _ [] Hc); [reflexivity |].
        simpl. rewrite app_nil_r. reflexivity. }
      rewrite Hp. split; [| split; [| split; [| split]]].
      * split; [intros H; contradiction |].
        intros (d' & w1' & l & r & _ & H & _). discriminate H.
      * left. reflexivity.
      * intros d' w1' H. discriminate H.
      * intros d' w1' l r _ H. discriminate H.
      * intros d' w1' l r response minted _ H. discriminate H.
    + destruct (String.eqb (lower line) "yes") eqn:Hyes.
      * (* accepted *)
        destruct (reserve_doi_accepted _ _ _ _ _ _ Hc Hin Hyes)
          as (w' & Htr & _ & Hsnd & Hfst).
        rewrite Hsnd.
        assert (Hp : posts (issued w w') =
                     [mkEvent (reserve_request self article_id)
                        (server (w_trace w1) (reserve_request self article_id))]).
        { rewrite (issued_after_check _ _ _ _ _ _ Hc Htr). reflexivity. }
        rewrite Hp. apply String.eqb_eq in Hyes.
        split; [| split; [| split; [| split]]].
        -- split; [| intros _; discriminate].
           intros _. exists d, w1, line, rest. repeat split; assumption.
        -- right. eexists. reflexivity.
        -- intros d' w1' H. discriminate H.
        -- intros d' w1' l r _ H Hl. injection H as <- <-. contradiction.
        -- intros d' w1' l r response minted H1 _ _ H4 H5.
           injection H1 as <- <-. rewrite Hfst, H4. simpl. rewrite H5. reflexivity.
      * (* declined *)
        rewrite (reserve_doi_declined _ _ _ _ _ _ Hc Hin Hyes). simpl.
        assert (Hp : posts (issued w (logged (prompted w1 line rest)
                                        WARNING "Skipping... ")) = []).
        { rewrite (issued_after_check _ _ _ _ _ [] Hc); [reflexivity |].
          simpl. rewrite app_nil_r. reflexivity. }
        rewrite Hp. apply String.eqb_neq in Hyes.
        split; [| split; [| split; [| split]]].
        -- split; [intros H; contradiction |].
           intros (d' & w1' & l & r & _ & H & Hl). injection H as <- <-.
           contradiction.
        -- left. reflexivity.
        -- intros d' w1' H. discriminate H.
        -- intros d' w1' l r H1 _ _. injection H1 as <- _.
           split; [reflexivity |].
           split; [exact (doi_check_unreserved_falsy _ _ _ _ Hc) |].
           split; [| reflexivity].
           apply in_or_app. right. left. reflexivity.
        -- intros d' w1' l r response minted _ H Hl. injection H as <- <-.
           contradiction.
  - (* the check raised *)
    rewrite (reserve_doi_failed_check _ _ _ _ Hc). simpl.
    assert (Hp : posts (issued w w1) = []).
    { rewrite (issued_after_check _ _ _ _ w1 [] Hc); [reflexivity |].
      rewrite app_nil_r. reflexivity. }
    rewrite Hp. split; [| split; [| split; [| split]]].
    + split; [intros H; contradiction |].
      intros (d' & w1' & l & r & H & _). discriminate H.
    + left. reflexivity.
    + intros d' w1' H. discriminate H.
    + intros d' w1' l r H. discriminate H.
    + intros d' w1' l r response minted H. discriminate H.
Qed.

End AccessorClaims.

(** *** The accessors on a concrete server *)

(** C9, as stated, fails for the group listing: its one GET carries no
    pagination parameters. *)
Lemma groups_fetch_not_paged :
  ~ groups_fetch_is_paged doi_server plain_self empty_world.
Proof.
  intros (ev & Hev & _ & ps & Hps & _).
  vm_compute in Hev. injection Hev as <-. simpl in Hps. discriminate Hps.
Qed.

(** C6, as stated, fails on an article whose DOI field is the empty
    string: the second component is that empty string, not null. *)
Lemma doi_check_empty_not_null :
  ~ doi_check_null_when_unreserved doi_server plain_self 2 empty_world.
Proof.
  intros H.
  edestruct H as [_ H2]; [vm_compute; reflexivity | reflexivity |].
  specialize (H2 (or_introl eq_refl)). vm_compute in H2. discriminate H2.
Qed.

Lemma doi_check_spec_witness :
  doi_check doi_server plain_self 1 empty_world =
    (Ok (true, JStr "10.x/abc"),
     exchange doi_server empty_world (article_request plain_self 1)).
Proof.
  edestruct (doi_check_spec doi_server plain_self 1 empty_world) as [H _];
    [vm_compute; reflexivity | reflexivity |].
  exact H.
Defined.

(** C3, as stated, fails on the same article: declining the prompt
    returns the empty string that the check reported, not null. *)
Lemma reserve_doi_decline_not_null :
  ~ reserve_doi_null_on_decline doi_server plain_self 2 (console ["no"]).
Proof.
  intros H.
  edestruct H as [H1 _];
    [vm_compute; reflexivity | reflexivity | vm_compute; discriminate |].
  vm_compute in H1. discriminate H1.
Qed.

Lemma reserve_doi_spec_witness :
  fst (reserve_doi doi_server plain_self 2 (console ["No"])) = Ok (JStr "") /\
  posts (issued (console ["No"])
           (snd (reserve_doi doi_server plain_self 2 (console ["No"])))) = [] /\
  fst (reserve_doi doi_server plain_self 3 (console ["Yes"])) =
    Ok (JStr "10.x/new").
Proof.
  destruct (reserve_doi_spec doi_server plain_self 2 (console ["No"]))
    as (_ & _ & _ & Hno & _).
  destruct (reserve_doi_spec doi_server plain_self 3 (console ["Yes"]))
    as (_ & _ & _ & _ & Hyes).
  edestruct Hno as (H1 & _ & _ & H4);
    [vm_compute; reflexivity | reflexivity | vm_compute; discriminate |].
  split; [exact H1 | split; [exact H4 |]].
  eapply Hyes; [vm_compute; reflexivity | reflexivity | reflexivity
               | vm_compute; reflexivity | reflexivity].
Defined.

(** ** Lists, tables and strings *)



Lemma pd_DataFrame_shape body raw :
  pd_DataFrame body = Ok raw ->
  df_index raw = seq 0 (shape0 raw) /\
  List.Forall (fun col => List.length (snd col) = shape0 raw) (df_columns raw).
Proof.
  unfold pd_DataFrame. destruct body; try discriminate.
  destruct (as_records l) as [recs|]; [| discriminate].
  intros H. injection H as <-. unfold shape0. simpl. split.
  - rewrite length_seq. reflexivity.
  - apply List.Forall_forall. intros col Hin. apply in_map_iff in Hin.
    destruct Hin as (k & <- & _). simpl.
    rewrite length_map, length_seq. reflexivity.
Qed.








(** *** Filters without operators are substring tests *)




(** *** The search on bytes is the search on characters *)

Lemma append_cons c s t : String c s +:+ t = String c (s +:+ t).
Proof. reflexivity. Qed.

Lemma text_cons ch s : text (ch :: s) = ch +:+ text s.
Proof. reflexivity. Qed.

Lemma continuation_not_special c :
  is_continuation c = true ->
  is_re_operator c = false /\ Ascii.eqb c "." = false /\
  continuation_bytes c = None.
Proof.
  destruct c as [[] [] [] [] [] [] [] []]; vm_compute; intros H;
    try discriminate H; repeat split.
Qed.

Lemma first_byte_not_continuation c n :
  continuation_bytes c = Some n -> is_continuation c = false.
Proof.
  destruct (is_continuation c) eqn:E; [| reflexivity].
  destruct (continuation_not_special c E) as (_ & _ & ->). discriminate.
Qed.

Lemma character_inv ch :
  is_character ch = true ->
  exists first rest n,
    ch = String first rest /\ continuation_bytes first = Some n /\
    String.length rest = n /\ all_continuation rest = true /\
    is_continuation first = false.
Proof.
  destruct ch as [|first rest]; cbn [is_character]; [discriminate |].
  destruct (continuation_bytes first) as [n|] eqn:E; [| discriminate].
  intros H. apply andb_true_iff in H. destruct H as [Hlen Hall].
  apply Nat.eqb_eq in Hlen.
  exists first, rest, n.
  split; [reflexivity |]. split; [exact E |]. split; [exact Hlen |].
  split; [exact Hall |]. exact (first_byte_not_continuation _ _ E).
Qed.

Lemma single_byte_character first rest (c : ascii) :
  is_character (String first rest) = true ->
  continuation_bytes c = Some 0%nat ->
  String.eqb (String first rest) (String c EmptyString) = Ascii.eqb first c.
Proof.
  intros Hch Hc. cbn [String.eqb].
  destruct (Ascii.eqb_spec first c) as [->|Hne]; [| reflexivity].
  cbn [is_character] in Hch. rewrite Hc in Hch.
  apply andb_true_iff in Hch. destruct Hch as [Hlen _].
  destruct rest; [reflexivity | discriminate Hlen].
Qed.

Lemma re_compile_app a b :
  re_compile (a +:+ b) =
  match re_compile a, re_compile b with
  | Some x, Some y => Some (x ++ y)
  | _, _ => None
  end.
Proof.
  induction a as [|c a IH].
  - change (EmptyString +:+ b) with b. cbn [re_compile].
    destruct (re_compile b); reflexivity.
  - rewrite append_cons. cbn [re_compile].
    destruct (is_re_operator c); [reflexivity |]. rewrite IH.
    destruct (re_compile a); [| reflexivity].
    destruct (re_compile b); reflexivity.
Qed.

Lemma re_compile_continuation rest :
  all_continuation rest = true ->
  re_compile rest = Some (map PChar (list_ascii_of_string rest)).
Proof.
  induction rest as [|c rest IH]; cbn [all_continuation re_compile]; [reflexivity |].
  intros H. apply andb_true_iff in H. destruct H as [Hc Hrest].
  destruct (continuation_not_special c Hc) as (-> & -> & _).
  rewrite (IH Hrest). reflexivity.
Qed.

Lemma re_compile_text pat items :
  List.Forall (fun ch => is_character ch = true) pat ->
  re_compile (text pat) = Some items ->
  items = flat_map compile_character pat.
Proof.
  intros Hpat. revert items.
  induction Hpat as [|ch pat Hch Hpat IH]; intros items H.
  - injection H as <-. reflexivity.
  - rewrite text_cons, re_compile_app in H.
    destruct (character_inv ch Hch) as (first & rest & n & -> & _ & _ & Hall & _).
    cbn [re_compile] in H. destruct (is_re_operator first); [discriminate H |].
    rewrite (re_compile_continuation rest Hall) in H.
    destruct (re_compile (text pat)) as [tail|]; [| discriminate H].
    injection H as <-. rewrite (IH tail eq_refl). reflexivity.
Qed.

Lemma re_match_literal (r r' : string) items s :
  String.length r = String.length r' ->
  re_match (map PChar (list_ascii_of_string r) ++ items) (r' +:+ s) =
  String.eqb r r' && re_match items s.
Proof.
  revert r'. induction r as [|c r IH]; intros [|c' r'] Hlen;
    try discriminate Hlen.
  - reflexivity.
  - rewrite append_cons. cbn [list_ascii_of_string map app String.eqb re_match].
    injection Hlen as Hlen. rewrite (IH r' Hlen).
    destruct (Ascii.eqb c c'); reflexivity.
Qed.

Lemma text_at_boundary s :
  List.Forall (fun ch => is_character ch = true) s -> at_boundary (text s) = true.
Proof.
  intros [|ch s' Hch _]; [reflexivity |].
  destruct (character_inv ch Hch) as (first & rest & n & -> & _ & _ & _ & Hf).
  rewrite text_cons, append_cons. cbn [at_boundary]. rewrite Hf. reflexivity.
Qed.

Lemma skip_continuation_app rest s :
  all_continuation rest = true -> at_boundary s = true ->
  skip_continuation (rest +:+ s) = s.
Proof.
  intros Hall Hs. induction rest as [|c rest IH].
  - change (EmptyString +:+ s) with s.
    destruct s as [|c s]; [reflexivity |]. cbn [skip_continuation].
    cbn [at_boundary] in Hs. apply negb_true_iff in Hs. rewrite Hs. reflexivity.
  - cbn [all_continuation] in Hall. apply andb_true_iff in Hall.
    destruct Hall as [Hc Hrest]. rewrite append_cons.
    cbn [skip_continuation]. rewrite Hc. exact (IH Hrest).
Qed.

Lemma re_match_character a b items s :
  is_character a = true -> is_character b = true -> at_boundary s = true ->
  re_match (compile_character a ++ items) (b +:+ s) =
  char_matches a b && re_match items s.
Proof.
  intros Ha Hb Hs.
  destruct (character_inv a Ha) as (fa & ra & na & -> & Ea & La & _ & _).
  destruct (character_inv b Hb) as (fb & rb & nb & -> & Eb & Lb & Hallb & Hfb).
  unfold char_matches.
  rewrite (single_byte_character fa ra "." Ha eq_refl).
  rewrite append_cons. cbn [compile_character app].
  destruct (Ascii.eqb_spec fa ".") as [->|Hdot].
  - assert (ra = EmptyString) as ->.
    { vm_compute in Ea. injection Ea as <-.
      destruct ra; [reflexivity | discriminate La]. }
    cbn [list_ascii_of_string map app re_match].
    rewrite Hfb, (skip_continuation_app rb s Hallb Hs).
    rewrite (single_byte_character fb rb newline Hb eq_refl).
    rewrite andb_true_r. reflexivity.
  - cbn [re_match String.eqb].
    destruct (Ascii.eqb_spec fa fb) as [->|Hne]; [| reflexivity].
    cbn [andb]. apply re_match_literal.
    rewrite Ea in Eb. injection Eb as <-. rewrite La, Lb. reflexivity.
Qed.

Lemma re_match_characters pat s :
  List.Forall (fun ch => is_character ch = true) pat ->
  List.Forall (fun ch => is_character ch = true) s ->
  re_match (flat_map compile_character pat) (text s) = match_characters pat s.
Proof.
  intros Hpat. revert s.
  induction Hpat as [|a pat Ha Hpat IH]; intros s Hs; [reflexivity |].
  cbn [flat_map match_characters].
  destruct Hs as [|b s Hb Hs].
  - destruct (character_inv a Ha) as (fa & ra & na & -> & _).
    reflexivity.
  - rewrite text_cons.
    rewrite (re_match_character a b _ _ Ha Hb (text_at_boundary s Hs)).
    rewrite (IH s Hs). reflexivity.
Qed.

(** Inside a character no match begins. *)
Lemma re_search_skips a items rest s :
  is_character a = true -> all_continuation rest = true ->
  re_search (compile_character a ++ items) (rest +:+ s) =
  re_search (compile_character a ++ items) s.
Proof.
  intros Ha Hall.
  destruct (character_inv a Ha) as (fa & ra & na & -> & _ & _ & _ & Hfa).
  induction rest as [|c rest IH]; [reflexivity |].
  cbn [all_continuation] in Hall. apply andb_true_iff in Hall.
  destruct Hall as [Hc Hrest].
  rewrite append_cons. cbn [re_search]. rewrite (IH Hrest).
  cbn [compile_character app re_match].
  destruct (Ascii.eqb fa ".").
  - rewrite Hc. rewrite andb_false_r. reflexivity.
  - destruct (Ascii.eqb_spec fa c) as [->|_]; [| reflexivity].
    rewrite Hc in Hfa. discriminate Hfa.
Qed.

Lemma re_search_characters pat s :
  List.Forall (fun ch => is_character ch = true) pat ->
  List.Forall (fun ch => is_character ch = true) s ->
  re_search (flat_map compile_character pat) (text s) = search_characters pat s.
Proof.
  intros Hpat Hs. induction Hs as [|b s Hb Hs IH].
  - cbn [search_characters].
    assert (Hnil : List.Forall (fun ch => is_character ch = true) [])
      by constructor.
    rewrite <- (re_match_characters pat [] Hpat Hnil).
    reflexivity.
  - cbn [search_characters].
    assert (Hbs : List.Forall (fun ch => is_character ch = true) (b :: s))
      by (constructor; assumption).
    rewrite <- (re_match_characters pat (b :: s) Hpat Hbs).
    rewrite <- IH. rewrite text_cons.
    destruct (character_inv b Hb) as (fb & rb & nb & -> & _ & _ & Hallb & _).
    rewrite append_cons. cbn [re_search]. f_equal.
    destruct Hpat as [|a pat Ha Hpat].
    + destruct (rb +:+ text s), (text s); reflexivity.
    + cbn [flat_map]. apply re_search_skips; assumption.
Qed.

(** For a filter of ordinary characters and dots, [matches_filter]
    decides on the UTF-8 text what the search decides on the characters
    of the Python strings: a dot takes one character, of whatever
    length, and never the newline. *)
Theorem matches_filter_by_characters (pat s : list string) :
  List.Forall (fun ch => is_character ch = true) pat ->
  List.Forall (fun ch => is_character ch = true) s ->
  re_compile (text pat) <> None ->
  matches_filter (text pat) (text s) = search_characters pat s.
Proof.
  intros Hpat Hs Hc. unfold matches_filter.
  destruct (re_compile (text pat)) as [items|] eqn:E; [| contradiction].
  rewrite (re_compile_text pat items Hpat E).
  apply re_search_characters; assumption.
Qed.

Lemma assoc_In {A} (k : string) (kv : list (string * A)) v :
  assoc k kv = Some v -> In (k, v) kv.
Proof.
  induction kv as [|[k' v'] kv IH]; simpl; [discriminate |].
  destruct (String.eqb_spec k k') as [->|_].
  - intros H. injection H as ->. left. reflexivity.
  - intros H. right. exact (IH H).
Qed.





(** ** The account list *)

Section AccountList.

Variable server : list event -> request -> outcome.
Variable self : FigshareInstituteAdmin.





End AccountList.

(** The example of the specification: of a@x.org, test@x.org and b@x.org
    the filter "test" removes the second only, and the two others are
    relabelled 0 and 1. *)
Example account_list_filter_test :
  fst (get_account_list campus_server filtering_self empty_world) =
    Ok {| df_index := [0; 1]%nat;
          df_columns := [("id", [JInt 1; JInt 3]);
                         ("email", [JStr "a@x.org"; JStr "b@x.org"])] |}.
Proof. vm_compute. reflexivity. Qed.

(** The dot of a filter stands for one whole character, whatever the
    length of its encoding: "a.x" matches an e-mail that has the Cyrillic
    letter zhe (two bytes) between "a" and "x", "a..x" does not, and no
    dot matches a newline. *)
Example filter_dot_is_one_character :
  let zhe := String "208" (String "182" EmptyString) in
  matches_filter "a.x" ("a" +:+ zhe +:+ "x.org") = true /\
  matches_filter "a..x" ("a" +:+ zhe +:+ "x.org") = false /\
  matches_filter "a.x" "a@x.org" = true /\
  matches_filter "a.x" ("a" +:+ String newline "x.org") = false /\
  matches_filter "a.x" "ax.org" = false.
Proof. vm_compute. repeat split. Qed.



(** ** The scan of a role structure *)

Lemma array_set_Ok {A} (n : nat) (v : A) (a a' : list A) :
  array_set n v a = Ok a' -> a' = <[n := v]> a /\ (n < List.length a)%nat.
Proof.
  unfold array_set. destruct (Nat.ltb_spec n (List.length a)); [| discriminate].
  intros H0. injection H0 as <-. split; [reflexivity | assumption].
Qed.

Lemma flag_set_Ok (n : nat) (v : string) a a' :
  flag_set n v a = Ok a' -> a' = option_map (fun l => <[n := v]> l) a.
Proof.
  unfold flag_set. destruct a as [l|]; [| discriminate].
  destruct (array_set n v l) as [l'|e] eqn:E; simpl; [| discriminate].
  intros H. injection H as <-. apply array_set_Ok in E. destruct E as [-> _].
  reflexivity.
Qed.

Lemma mark_nothing n L : mark n None false false L = L.
Proof. destruct L. reflexivity. Qed.

Lemma mark_mark n g1 a1 r1 g2 a2 r2 L :
  mark n g2 a2 r2 (mark n g1 a1 r1 L) =
  mark n (or_else g2 g1) (a1 || a2) (r1 || r2) L.
Proof.
  unfold mark. simpl. f_equal.
  - destruct a1, a2; simpl; try reflexivity.
    destruct (admin_flag L); simpl; [| reflexivity].
    rewrite list_insert_insert_eq. reflexivity.
  - destruct r1, r2; simpl; try reflexivity.
    destruct (reviewer_flag L); simpl; [| reflexivity].
    rewrite list_insert_insert_eq. reflexivity.
  - destruct g1, g2; simpl; try reflexivity.
    rewrite list_insert_insert_eq. reflexivity.
Qed.

Ltac invert_sets :=
  repeat match goal with
  | H : rbind _ _ = Ok _ |- _ =>
      apply rbind_Ok_inv in H; destruct H as (? & ? & H)
  | H : array_set _ _ _ = Ok _ |- _ =>
      apply array_set_Ok in H; destruct H as [-> _]
  | H : flag_set _ _ _ = Ok _ |- _ => apply flag_set_Ok in H; subst
  | H : Ok _ = Ok _ |- _ => injection H as <-
  end.

Lemma scan_record_mark flag n key t_dict L L' :
  scan_record flag n key t_dict L = Ok L' ->
  L' = mark n (if record_has_id 11 t_dict then Some key else None)
         (flag && record_has_id 2 t_dict) (flag && record_has_id 49 t_dict) L.
Proof.
  unfold scan_record, record_has_id.
  destruct (subscript t_dict "id") as [id|e]; simpl; [| discriminate].
  destruct L as [arts projs colls adm rev grp].
  destruct (eq_int id 11), flag, (eq_int id 2), (eq_int id 49); simpl;
    intros H; invert_sets; reflexivity.
Qed.

Lemma scan_records_mark flag n key items L L' :
  for_pure items (scan_record flag n key) L = Ok L' ->
  L' = mark n (if existsb (record_has_id 11) items then Some key else None)
         (flag && existsb (record_has_id 2) items)
         (flag && existsb (record_has_id 49) items) L.
Proof.
  revert L. induction items as [|t items IH]; intros L; simpl.
  - intros H. injection H as <-. rewrite !andb_false_r.
    symmetry. apply mark_nothing.
  - intros H. apply rbind_Ok_inv in H. destruct H as (L1 & H1 & H).
    apply scan_record_mark in H1. apply IH in H. subst L1. rewrite H.
    rewrite mark_mark. rewrite !andb_orb_distrib_r. f_equal.
    destruct (record_has_id 11 t), (existsb (record_has_id 11) items);
      reflexivity.
Qed.

Lemma fold_later_key roles ks found :
  fold_left (later_key roles) ks found =
  or_else (fold_left (later_key roles) ks None) found.
Proof.
  revert found. induction ks as [|key ks IH]; intros found; simpl;
    [reflexivity |].
  rewrite IH. rewrite (IH (later_key roles None key)).
  unfold later_key. destruct (key_has_role roles 11 key); simpl.
  - destruct (fold_left _ ks None); reflexivity.
  - destruct (fold_left _ ks None); reflexivity.
Qed.

(** The whole scan: the row's group association becomes the last key
    that holds a record with id 11, and, when flags are requested, a
    record with id 2 (49) anywhere raises the admin (reviewer) flag. *)
Lemma scan_roles_mark flag n roles L L' :
  scan_roles flag n roles L = Ok L' ->
  L' = mark n (curator_key roles) (flag && holds_role roles 2)
         (flag && holds_role roles 49) L.
Proof.
  unfold scan_roles, curator_key, holds_role, role_keys.
  destruct (keys roles) as [ks|e]; cbn [rbind]; [| discriminate].
  revert L. induction ks as [|key ks IH]; intros L;
    cbn [for_pure rbind fold_left existsb].
  - intros H. injection H as <-. rewrite !andb_false_r.
    symmetry. apply mark_nothing.
  - intros H. apply rbind_Ok_inv in H. destruct H as (L1 & H1 & H).
    apply rbind_Ok_inv in H1. destruct H1 as (records & Hrec & H1).
    apply rbind_Ok_inv in H1. destruct H1 as (items & Hit & H1).
    apply scan_records_mark in H1. apply IH in H. subst L1. rewrite H.
    assert (K : forall k,
               key_has_role roles k key = existsb (record_has_id k) items).
    { intros k. unfold key_has_role, has_role. rewrite Hrec, Hit. reflexivity. }
    rewrite mark_mark, !andb_orb_distrib_r, !K.
    rewrite (fold_later_key roles ks (later_key roles None key)).
    unfold later_key at 3. rewrite K. reflexivity.
Qed.

(** *** The scan of a well-formed role structure completes *)






(** ** One account *)

Lemma pd_DataFrame_raises body e :
  pd_DataFrame body = Raise e -> e = OutOfModel.
Proof.
  unfold pd_DataFrame. destruct body; try (intros H; injection H as <-; reflexivity).
  destruct (as_records l); [discriminate |].
  intros H; injection H as <-; reflexivity.
Qed.

Section OneAccount.

Variable server : list event -> request -> outcome.
Variable self : FigshareInstituteAdmin.

Lemma count_or_warn_run (fetch : Z -> M DataFrame) (what : string)
    (n : nat) (account_id : Z) (counts : list Z) (w : world) (rq : request) :
  (forall w0,
     snd (fetch account_id w0) = exchange server w0 rq /\
     fst (fetch account_id w0) =
       match server (w_trace w0) rq with
       | Returned body => pd_DataFrame body
       | Failed => Raise HTTPError
       end) ->
  count_or_warn fetch what n account_id counts w =
    (counted n (server (w_trace w) rq) counts,
     after_guarded server w rq what account_id).
Proof.
  intros Hfetch. destruct (Hfetch w) as [Hw Hr].
  unfold count_or_warn, try_except_HTTPError, bind, after_guarded, counted.
  destruct (fetch account_id w) as [r w1]. simpl in Hw, Hr. subst w1 r.
  destruct (server (w_trace w) rq) as [body|].
  - destruct (pd_DataFrame body) as [df|e] eqn:Hdf; simpl.
    + unfold lift, array_set.
      destruct (Nat.ltb n (List.length counts)); reflexivity.
    + rewrite (pd_DataFrame_raises _ _ Hdf). reflexivity.
  - reflexivity.
Qed.

Lemma get_account_group_roles_run account_id w :
  get_account_group_roles server self account_id w =
    (match server (w_trace w) (roles_request self account_id) with
     | Returned roles => Ok roles
     | Failed => Raise HTTPError
     end,
     exchange server w (roles_request self account_id)).
Proof.
  unfold get_account_group_roles, bind. rewrite redata_request_run.
  fold (roles_request self account_id).
  destruct (server (w_trace w) (roles_request self account_id)); reflexivity.
Qed.

(** The worlds one turn goes through. *)
Let w_roles (w : world) (id : Z) : world :=
  exchange server w (roles_request self id).
Let w_articles (w : world) (id : Z) : world :=
  after_guarded server (w_roles w id) (user_request self "articles" id)
    "articles" id.
Let w_projects (w : world) (id : Z) : world :=
  after_guarded server (w_articles w id) (user_request self "projects" id)
    "projects" id.
Let w_collections (w : world) (id : Z) : world :=
  after_guarded server (w_projects w id) (user_request self "collections" id)
    "collections" id.

(** The body of the loop, request by request. *)
Lemma account_body_run flag n id L w :
  account_body server self flag (n, id) L w =
    match server (w_trace w) (roles_request self id) with
    | Failed => (Raise HTTPError, w_roles w id)
    | Returned roles =>
        match counted n (server (w_trace (w_roles w id))
                           (user_request self "articles" id))
                (num_articles L) with
        | Raise e => (Raise e, w_articles w id)
        | Ok arts =>
            match counted n (server (w_trace (w_articles w id))
                               (user_request self "projects" id))
                    (num_projects L) with
            | Raise e => (Raise e, w_projects w id)
            | Ok projs =>
                match counted n (server (w_trace (w_projects w id))
                                   (user_request self "collections" id))
                        (num_collections L) with
                | Raise e => (Raise e, w_collections w id)
                | Ok colls =>
                    (scan_roles flag n roles
                       {| num_articles := arts;
                          num_projects := projs;
                          num_collections := colls;
                          admin_flag := admin_flag L;
                          reviewer_flag := reviewer_flag L;
                          group_assoc := group_assoc L |},
                     w_collections w id)
                end
            end
        end
    end.
Proof.
  unfold account_body, bind at 1. rewrite get_account_group_roles_run.
  fold (w_roles w id).
  destruct (server (w_trace w) (roles_request self id)) as [roles|];
    [| reflexivity].
  unfold bind at 1.
  rewrite (count_or_warn_run _ _ _ _ _ _ _
             (get_user_articles_run server self id)).
  fold (w_articles w id).
  destruct (counted n _ (num_articles L)) as [arts|e]; [| reflexivity].
  unfold bind at 1.
  rewrite (count_or_warn_run _ _ _ _ _ _ _
             (get_user_projects_run server self id)).
  fold (w_projects w id).
  destruct (counted n _ (num_projects L)) as [projs|e]; [| reflexivity].
  unfold bind at 1.
  rewrite (count_or_warn_run _ _ _ _ _ _ _
             (get_user_collections_run server self id)).
  fold (w_collections w id).
  destruct (counted n _ (num_collections L)) as [colls|e]; reflexivity.
Qed.

Lemma after_guarded_world w rq what id :
  w_trace (after_guarded server w rq what id) =
    w_trace w ++ [mkEvent rq (server (w_trace w) rq)] /\
  w_log (after_guarded server w rq what id) =
    w_log w ++ warning_for what id (server (w_trace w) rq) /\
  w_stdin (after_guarded server w rq what id) = w_stdin w.
Proof.
  unfold after_guarded, warning_for, exchange, logged.
  destruct (server (w_trace w) rq); simpl;
    rewrite ?app_nil_r; repeat split; reflexivity.
Qed.

Lemma insert_at_length {A} (xs : list A) (v d : A) (tl : list A) :
  <[List.length xs := v]> (xs ++ d :: tl) = xs ++ v :: tl.
Proof.
  induction xs as [|x xs IH]; simpl; [reflexivity |]. f_equal. exact IH.
Qed.

Lemma fill_insert {B A} (f : B -> A) (rows : list B) (r : B) (d : A) (N : nat) :
  (List.length rows < N)%nat ->
  <[List.length rows := f r]> (map f rows ++ repeat d (N - List.length rows)) =
  map f (rows ++ [r]) ++ repeat d (N - List.length (rows ++ [r])).
Proof.
  intros Hlt. rewrite map_app, length_app, <- app_assoc. simpl.
  replace (N - List.length rows)%nat with (S (N - (List.length rows + 1)))
    by lia.
  simpl. rewrite <- (length_map f rows). apply insert_at_length.
Qed.

Lemma fill_keep {B A} (f : B -> A) (rows : list B) (r : B) (d : A) (N : nat) :
  (List.length rows < N)%nat -> f r = d ->
  map f rows ++ repeat d (N - List.length rows) =
  map f (rows ++ [r]) ++ repeat d (N - List.length (rows ++ [r])).
Proof.
  intros Hlt Hd. rewrite map_app, length_app, <- app_assoc. simpl.
  replace (N - List.length rows)%nat with (S (N - (List.length rows + 1)))
    by lia.
  simpl. rewrite Hd. reflexivity.
Qed.


Lemma counted_fill (get : row_run -> outcome) rows r N out arts :
  (List.length rows < N)%nat ->
  get r = out ->
  counted (List.length rows) out
    (map (fun r => count_of (get r)) rows ++ repeat 0 (N - List.length rows)) =
    Ok arts ->
  arts = map (fun r => count_of (get r)) (rows ++ [r]) ++
         repeat 0 (N - List.length (rows ++ [r])) /\
  payload_ok out.
Proof.
  intros Hlt Hget. unfold counted, payload_ok. destruct out as [body|].
  - destruct (pd_DataFrame body) as [df|e] eqn:Hdf; simpl; [| discriminate].
    intros H. apply array_set_Ok in H. destruct H as [-> _].
    split; [| eauto].
    rewrite <- (fill_insert (fun r => count_of (get r)) rows r 0 N Hlt).
    rewrite Hget. simpl. rewrite Hdf. reflexivity.
  - intros H. injection H as <-. split; [| exact I].
    apply fill_keep; [exact Hlt |]. rewrite Hget. reflexivity.
Qed.


Lemma mark_fills flag N rows r :
  (List.length rows < N)%nat ->
  mark (List.length rows) (curator_key (rr_roles r))
    (flag && holds_role (rr_roles r) 2) (flag && holds_role (rr_roles r) 49)
    {| num_articles :=
         map (fun r => count_of (rr_articles r)) (rows ++ [r]) ++
         repeat 0 (N - List.length (rows ++ [r]));
       num_projects :=
         map (fun r => count_of (rr_projects r)) (rows ++ [r]) ++
         repeat 0 (N - List.length (rows ++ [r]));
       num_collections :=
         map (fun r => count_of (rr_collections r)) (rows ++ [r]) ++
         repeat 0 (N - List.length (rows ++ [r]));
       admin_flag := admin_flag (locals_after flag N rows);
       reviewer_flag := reviewer_flag (locals_after flag N rows);
       group_assoc := group_assoc (locals_after flag N rows) |} =
  locals_after flag N (rows ++ [r]).
Proof.
  intros Hlt. unfold mark, locals_after. cbn [num_articles num_projects
    num_collections admin_flag reviewer_flag group_assoc]. f_equal.
  - destruct flag; cbn [andb]; [| reflexivity].
    destruct (holds_role (rr_roles r) 2) eqn:E; cbn [option_map]; f_equal.
    + replace "X" with (row_flag 2 r)
        by (unfold row_flag; rewrite E; reflexivity).
      apply fill_insert. exact Hlt.
    + apply fill_keep; [exact Hlt |]. unfold row_flag. rewrite E. reflexivity.
  - destruct flag; cbn [andb]; [| reflexivity].
    destruct (holds_role (rr_roles r) 49) eqn:E; cbn [option_map]; f_equal.
    + replace "X" with (row_flag 49 r)
        by (unfold row_flag; rewrite E; reflexivity).
      apply fill_insert. exact Hlt.
    + apply fill_keep; [exact Hlt |]. unfold row_flag. rewrite E. reflexivity.
  - destruct (curator_key (rr_roles r)) as [key|] eqn:E.
    + replace key with (row_group r)
        by (unfold row_group; rewrite E; reflexivity).
      apply fill_insert. exact Hlt.
    + apply fill_keep; [exact Hlt |]. unfold row_group. rewrite E. reflexivity.
Qed.

(** One completed turn fills in one more row and adds its four exchanges
    and its warnings, nothing else. *)
Lemma account_body_fills flag N rows id w L1 w1 :
  (List.length rows < N)%nat ->
  account_body server self flag (List.length rows, id)
    (locals_after flag N rows) w = (Ok L1, w1) ->
  exists r,
    rr_id r = id /\
    L1 = locals_after flag N (rows ++ [r]) /\
    w_trace w1 = w_trace w ++ row_events self r /\
    w_log w1 = w_log w ++ row_warnings r /\
    w_stdin w1 = w_stdin w /\
    payload_ok (rr_articles r) /\ payload_ok (rr_projects r) /\
    payload_ok (rr_collections r).
Proof.
  intros Hlt. rewrite account_body_run.
  destruct (server (w_trace w) (roles_request self id)) as [roles|] eqn:Hroles;
    [| discriminate].
  set (o_a := server (w_trace (w_roles w id)) (user_request self "articles" id)).
  set (o_p := server (w_trace (w_articles w id)) (user_request self "projects" id)).
  set (o_c := server (w_trace (w_projects w id))
                (user_request self "collections" id)).
  set (r := mkRowRun id roles o_a o_p o_c).
  cbn [locals_after num_articles num_projects num_collections].
  destruct (counted _ o_a _) as [arts|e] eqn:Ha; [| discriminate].
  destruct (counted _ o_p _) as [projs|e] eqn:Hp; [| discriminate].
  destruct (counted _ o_c _) as [colls|e] eqn:Hc; [| discriminate].
  apply (counted_fill rr_articles rows r N o_a arts Hlt eq_refl) in Ha.
  apply (counted_fill rr_projects rows r N o_p projs Hlt eq_refl) in Hp.
  apply (counted_fill rr_collections rows r N o_c colls Hlt eq_refl) in Hc.
  destruct Ha as [-> Hoa], Hp as [-> Hop], Hc as [-> Hoc].
  intros H. injection H as Hscan <-.
  apply scan_roles_mark in Hscan.
  exists r. split; [reflexivity |]. split.
  - rewrite Hscan. apply (mark_fills flag N rows r Hlt).
  - assert (Wa : w_trace (w_articles w id) =
                 w_trace (w_roles w id) ++
                 [mkEvent (user_request self "articles" id) o_a] /\
                 w_log (w_articles w id) =
                 w_log (w_roles w id) ++ warning_for "articles" id o_a /\
                 w_stdin (w_articles w id) = w_stdin (w_roles w id))
      by apply after_guarded_world.
    assert (Wp : w_trace (w_projects w id) =
                 w_trace (w_articles w id) ++
                 [mkEvent (user_request self "projects" id) o_p] /\
                 w_log (w_projects w id) =
                 w_log (w_articles w id) ++ warning_for "projects" id o_p /\
                 w_stdin (w_projects w id) = w_stdin (w_articles w id))
      by apply after_guarded_world.
    assert (Wc : w_trace (w_collections w id) =
                 w_trace (w_projects w id) ++
                 [mkEvent (user_request self "collections" id) o_c] /\
                 w_log (w_collections w id) =
                 w_log (w_projects w id) ++ warning_for "collections" id o_c /\
                 w_stdin (w_collections w id) = w_stdin (w_projects w id))
      by apply after_guarded_world.
    assert (Wr : w_trace (w_roles w id) =
                 w_trace w ++ [mkEvent (roles_request self id) (Returned roles)] /\
                 w_log (w_roles w id) = w_log w /\
                 w_stdin (w_roles w id) = w_stdin w).
    { unfold w_roles, exchange. cbn [w_trace w_log w_stdin]. rewrite Hroles.
      repeat split; reflexivity. }
    clearbody o_a o_p o_c.
    destruct Wa as (Ta & La & Sa), Wp as (Tp & Lp & Sp),
             Wc as (Tc & Lc & Sc), Wr as (Tr & Lr & Sr).
    split; [| split; [| split; [| auto]]].
    + rewrite Tc, Tp, Ta, Tr. unfold row_events, r. cbn [rr_id rr_roles
        rr_articles rr_projects rr_collections].
      rewrite <- !app_assoc. reflexivity.
    + rewrite Lc, Lp, La, Lr. unfold row_warnings, r. cbn [rr_id rr_articles
        rr_projects rr_collections].
      rewrite <- !app_assoc. reflexivity.
    + rewrite Sc, Sp, Sa, Sr. reflexivity.
Qed.




(** *** The loop over the accounts *)


Lemma account_loop_fills flag N ids :
  forall rows w L' w',
    (List.length rows + List.length ids <= N)%nat ->
    for_each (combine (seq (List.length rows) (List.length ids)) ids)
      (account_body server self flag) (locals_after flag N rows) w =
      (Ok L', w') ->
    exists done,
      map rr_id done = ids /\
      L' = locals_after flag N (rows ++ done) /\
      w_trace w' = w_trace w ++ flat_map (row_events self) done /\
      w_log w' = w_log w ++ flat_map row_warnings done /\
      w_stdin w' = w_stdin w.
Proof.
  induction ids as [|id ids IH]; intros rows w L' w' Hlen Hrun.
  - cbn in Hrun. injection Hrun as <- <-. exists []. cbn.
    rewrite !app_nil_r. repeat split; reflexivity.
  - cbn [List.length seq combine for_each] in Hrun.
    apply bind_Ok_inv in Hrun. destruct Hrun as (L1 & w1 & Hbody & Hrest).
    cbn [List.length] in Hlen.
    apply account_body_fills in Hbody; [| lia].
    destruct Hbody as (r & Hid & -> & Ht & Hl & Hs & _).
    replace (S (List.length rows)) with (List.length (rows ++ [r])) in Hrest
      by (rewrite length_app; simpl; lia).
    apply IH in Hrest; [| rewrite length_app; simpl; lia].
    destruct Hrest as (done & Hids & -> & Ht' & Hl' & Hs').
    exists (r :: done). cbn [map flat_map].
    rewrite Hid, Hids, <- app_assoc. cbn [app].
    split; [reflexivity |]. split; [reflexivity |].
    rewrite Ht', Ht, Hl', Hl, Hs', Hs, <- !app_assoc.
    repeat split; reflexivity.
Qed.


End OneAccount.

(** ** The aggregation *)

Ltac invert_run :=
  repeat match goal with
  | H : bind _ _ _ = (Ok _, _) |- _ =>
      apply bind_Ok_inv in H; destruct H as (? & ? & ? & H)
  | H : lift _ _ = (Ok _, _) |- _ =>
      apply lift_Ok_inv in H; destruct H as [? ?]; subst
  | H : ret _ _ = (Ok _, _) |- _ =>
      apply ret_inv in H; destruct H as [? ?]; subst
  end.

Lemma select_length_eq {A B} (mask : list bool) (l1 : list A) (l2 : list B) :
  List.length l1 = List.length l2 ->
  List.length (select mask l1) = List.length (select mask l2).
Proof.
  revert l1 l2. induction mask as [|b mask IH]; intros [|x l1] [|y l2] H;
    try discriminate H; simpl; try reflexivity.
  injection H as H. destruct b; simpl; rewrite (IH l1 l2 H); reflexivity.
Qed.

Lemma mapM_as_int_inv cells ids :
  mapM as_int cells = Ok ids -> cells = map JInt ids.
Proof.
  revert ids. induction cells as [|c cells IH]; intros ids; simpl.
  - intros H. injection H as <-. reflexivity.
  - intros H. apply rbind_Ok_inv in H. destruct H as (z & Hz & H).
    apply rbind_Ok_inv in H. destruct H as (zs & Hzs & H).
    injection H as <-. destruct c; try discriminate Hz. injection Hz as ->.
    simpl. rewrite (IH zs Hzs). reflexivity.
Qed.

Lemma mapM_as_str_inv cells names :
  mapM as_str cells = Ok names -> cells = map JStr names.
Proof.
  revert names. induction cells as [|c cells IH]; intros names; simpl.
  - intros H. injection H as <-. reflexivity.
  - intros H. apply rbind_Ok_inv in H. destruct H as (z & Hz & H).
    apply rbind_Ok_inv in H. destruct H as (zs & Hzs & H).
    injection H as <-. destruct c; try discriminate Hz. injection Hz as ->.
    simpl. rewrite (IH zs Hzs). reflexivity.
Qed.



Lemma df_setitem_Ok c cells df df' :
  df_setitem c cells df = Ok df' ->
  df_index df' = df_index df /\
  df_columns df' = set_column c cells (df_columns df) /\
  List.length cells = shape0 df.
Proof.
  unfold df_setitem. destruct (Nat.eqb_spec (List.length cells) (shape0 df));
    [| discriminate].
  intros H. injection H as <-. repeat split; assumption.
Qed.

Lemma df_setitem_fits c cells df :
  List.length cells = shape0 df ->
  df_setitem c cells df =
    Ok {| df_index := df_index df;
          df_columns := set_column c cells (df_columns df) |}.
Proof. intros H. unfold df_setitem. rewrite H, Nat.eqb_refl. reflexivity. Qed.

Lemma init_locals_nothing_done flag N :
  init_locals flag N = locals_after flag N [].
Proof.
  unfold init_locals, locals_after. simpl. rewrite Nat.sub_0_r. reflexivity.
Qed.

Lemma locals_after_all flag (done : list row_run) :
  locals_after flag (List.length done) done =
  {| num_articles := map (fun r => count_of (rr_articles r)) done;
     num_projects := map (fun r => count_of (rr_projects r)) done;
     num_collections := map (fun r => count_of (rr_collections r)) done;
     admin_flag := if flag then Some (map (row_flag 2) done) else None;
     reviewer_flag := if flag then Some (map (row_flag 49) done) else None;
     group_assoc := map row_group done |}.
Proof.
  unfold locals_after. rewrite Nat.sub_diag. simpl. rewrite !app_nil_r.
  reflexivity.
Qed.


Lemma resolve_group_names groups (names : list string) :
  fold_left (fun ga g => resolve_group g ga) groups names =
  map (resolve_name groups) names.
Proof.
  revert names. induction groups as [|g groups IH]; intros names; simpl.
  - unfold resolve_name. simpl. rewrite map_id. reflexivity.
  - rewrite IH. unfold resolve_group. rewrite map_map. reflexivity.
Qed.

Lemma resolve_groups_run groups names w :
  resolve_groups groups names w =
    (Ok (map (resolve_name groups) names),
     {| w_trace := w_trace w;
        w_log := w_log w ++ map group_log groups;
        w_stdin := w_stdin w |}).
Proof.
  rewrite <- resolve_group_names. unfold resolve_groups.
  revert names w. induction groups as [|g groups IH]; intros names w; simpl.
  - unfold ret. rewrite app_nil_r. destruct w. reflexivity.
  - unfold bind at 1 2, log_info, log_record, ret. rewrite IH. simpl.
    rewrite <- app_assoc. reflexivity.
Qed.

Section Aggregation.

Variable server : list event -> request -> outcome.
Variable self : FigshareInstituteAdmin.

Lemma get_account_list_rectangular w acc w1 :
  get_account_list server self w = (Ok acc, w1) -> rectangular acc.
Proof.
  unfold get_account_list. intros H. invert_run.
  match goal with
  | H : pd_DataFrame _ = Ok ?raw |- _ =>
      destruct (pd_DataFrame_shape _ _ H) as [_ Hwf]
  end.
  match goal with
  | H : df_drop_columns _ ?raw = Ok ?acc0 |- _ =>
      assert (Hacc0 : rectangular acc0);
      [ unfold df_drop_columns in H; destruct (has_column _ raw);
        [| discriminate H]; injection H as <-;
        unfold rectangular, shape0; cbn [df_index df_columns];
        apply List.Forall_forall; intros col Hin;
        apply filter_In in Hin; destruct Hin as [Hin _];
        rewrite List.Forall_forall in Hwf; exact (Hwf col Hin) |]
  end.
  destruct (ignore_admin self).
  - invert_run.
    match goal with
    | H : df_drop _ _ = Ok _ |- _ =>
        unfold df_drop in H;
        match type of H with
        | (if ?b then _ else _) = _ => destruct b; [| discriminate H]
        end;
        injection H as <-
    end.
    unfold rectangular, shape0, df_reset_index, df_where.
    cbn [df_index df_columns]. rewrite length_seq.
    apply List.Forall_forall. intros col Hin. apply in_map_iff in Hin.
    destruct Hin as (col0 & <- & Hin). cbn [snd].
    apply select_length_eq.
    unfold rectangular in Hacc0. rewrite List.Forall_forall in Hacc0.
    exact (Hacc0 col0 Hin).
  - invert_run. exact Hacc0.
Qed.

Lemma column_length c df cells :
  rectangular df -> df_getitem c df = Ok cells ->
  List.length cells = shape0 df.
Proof.
  unfold rectangular, df_getitem. intros Hwf H.
  destruct (assoc c (df_columns df)) as [cs|] eqn:Ha; [| discriminate H].
  injection H as <-. apply assoc_In in Ha.
  rewrite List.Forall_forall in Hwf. exact (Hwf _ Ha).
Qed.


Lemma attach_flags_all flag (done : list row_run) df :
  List.length done = shape0 df ->
  attach_flags flag (locals_after flag (List.length done) done) df =
    Ok {| df_index := df_index df;
          df_columns := flag_columns flag done (df_columns df) |}.
Proof.
  intros Hlen. rewrite locals_after_all. unfold attach_flags, flag_columns.
  destruct flag; cbn [admin_flag reviewer_flag rbind].
  - rewrite df_setitem_fits by (rewrite !length_map; exact Hlen).
    cbn [rbind]. rewrite df_setitem_fits
      by (rewrite !length_map; unfold shape0 in *; exact Hlen).
    rewrite !map_map. reflexivity.
  - destruct df. reflexivity.
Qed.



(** What a completed aggregation has done: the account list and the group
    list were fetched, every account had its turn in order, and the
    returned table is the account list with the new columns set. *)
Lemma get_account_details_inv flag w df w' :
  get_account_details server self flag w = (Ok df, w') ->
  exists acc w1 gdf w2 ids done gids gnames,
    get_account_list server self w = (Ok acc, w1) /\
    get_groups server self w1 = (Ok gdf, w2) /\
    df_getitem "id" acc = Ok (map JInt ids) /\
    shape0 acc = List.length ids /\
    map rr_id done = ids /\
    df_getitem "id" gdf = Ok (map JInt gids) /\
    df_getitem "name" gdf = Ok (map JStr gnames) /\
    w_trace w' = w_trace w2 ++ flat_map (row_events self) done /\
    w_log w' = w_log w2 ++ flat_map row_warnings done ++
               map group_log (combine gids gnames) /\
    w_stdin w' = w_stdin w2 /\
    df_index df = df_index acc /\
    df_columns df =
      details_columns flag (combine gids gnames) done (df_columns acc).
Proof.
  unfold get_account_details. intros H.
  apply bind_Ok_inv in H. destruct H as (acc & w1 & Hacc & H).
  apply bind_Ok_inv in H. destruct H as (gdf & w2 & Hg & H).
  apply bind_Ok_inv in H. destruct H as (id_cells & wa & Hid & H).
  apply lift_Ok_inv in Hid. destruct Hid as [Hid ->].
  apply bind_Ok_inv in H. destruct H as (ids & wa & Hids & H).
  apply lift_Ok_inv in Hids. destruct Hids as [Hids ->].
  apply bind_Ok_inv in H. destruct H as (L & w3 & Hloop & H).
  apply bind_Ok_inv in H. destruct H as (df1 & wa & H1 & H).
  apply lift_Ok_inv in H1. destruct H1 as [H1 ->].
  apply bind_Ok_inv in H. destruct H as (df2 & wa & H2 & H).
  apply lift_Ok_inv in H2. destruct H2 as [H2 ->].
  apply bind_Ok_inv in H. destruct H as (df3 & wa & H3 & H).
  apply lift_Ok_inv in H3. destruct H3 as [H3 ->].
  apply bind_Ok_inv in H. destruct H as (df4 & wa & H4 & H).
  apply lift_Ok_inv in H4. destruct H4 as [H4 ->].
  apply bind_Ok_inv in H. destruct H as (gids & wa & Hgids & H).
  apply lift_Ok_inv in Hgids. destruct Hgids as [Hgids ->].
  apply bind_Ok_inv in H. destruct H as (gnames & wa & Hgnames & H).
  apply lift_Ok_inv in Hgnames. destruct Hgnames as [Hgnames ->].
  apply bind_Ok_inv in H. destruct H as (ga & w4 & Hres & H).
  apply bind_Ok_inv in H. destruct H as (df5 & wa & H5 & H).
  apply lift_Ok_inv in H5. destruct H5 as [H5 ->].
  apply ret_inv in H. destruct H as [-> ->].
  (* the id column *)
  apply mapM_as_int_inv in Hids. subst id_cells.
  pose proof (column_length _ _ _ (get_account_list_rectangular _ _ _ Hacc) Hid)
    as Hlen.
  rewrite length_map in Hlen.
  (* the loop *)
  rewrite init_locals_nothing_done, <- Hlen in Hloop.
  apply (account_loop_fills server self flag (List.length ids) ids [] w2)
    in Hloop; [| simpl; lia].
  destruct Hloop as (done & Hdone & -> & Ht & Hl & Hs).
  cbn [app] in *.
  assert (Hn : List.length ids = List.length done)
    by (rewrite <- Hdone, length_map; reflexivity).
  rewrite Hn in H1, H2, H3, H4, Hres.
  rewrite locals_after_all in H1, H2, H3, Hres.
  (* the groups *)
  apply rbind_Ok_inv in Hgids. destruct Hgids as (gc & Hgc & Hgids).
  apply mapM_as_int_inv in Hgids. subst gc.
  apply rbind_Ok_inv in Hgnames. destruct Hgnames as (gn & Hgn & Hgnames).
  apply mapM_as_str_inv in Hgnames. subst gn.
  rewrite resolve_groups_run in Hres. injection Hres as <- <-.
  (* the columns *)
  cbn [num_articles num_projects num_collections group_assoc] in *.
  apply df_setitem_Ok in H1. destruct H1 as (I1 & C1 & _).
  apply df_setitem_Ok in H2. destruct H2 as (I2 & C2 & _).
  apply df_setitem_Ok in H3. destruct H3 as (I3 & C3 & L3).
  rewrite attach_flags_all in H4
    by (rewrite ?length_map in L3; unfold shape0 in *; rewrite I3; exact L3).
  injection H4 as <-.
  apply df_setitem_Ok in H5. destruct H5 as (I5 & C5 & _).
  cbn [df_index df_columns] in *.
  exists acc, w1, gdf, w2, ids, done, gids, gnames.
  split; [exact Hacc |]. split; [exact Hg |]. split; [exact Hid |].
  split; [symmetry; exact Hlen |]. split; [exact Hdone |].
  split; [exact Hgc |]. split; [exact Hgn |].
  cbn [w_trace w_log w_stdin].
  split; [exact Ht |]. split; [rewrite Hl, <- app_assoc; reflexivity |].
  split; [exact Hs |].
  split; [rewrite I5, I3, I2, I1; reflexivity |].
  rewrite C5, C3, C2, C1. unfold details_columns.
  rewrite !map_map. reflexivity.
Qed.


End Aggregation.

(** ** The returned table *)




Lemma set_column_fresh c cells cols :
  assoc c cols = None -> set_column c cells cols = cols ++ [(c, cells)].
Proof.
  induction cols as [|[k v] cols IH]; simpl; [reflexivity |].
  destruct (String.eqb c k); [discriminate |].
  intros H. rewrite (IH H). reflexivity.
Qed.

Lemma assoc_app_fresh {A} c (cols extra : list (string * A)) :
  assoc c (cols ++ extra) =
  match assoc c cols with
  | Some v => Some v
  | None => assoc c extra
  end.
Proof.
  induction cols as [|[k v] cols IH]; simpl; [reflexivity |].
  destruct (String.eqb c k); [reflexivity | exact IH].
Qed.





Lemma in_flat_map_row_events (self : FigshareInstituteAdmin) done ev :
  In ev (flat_map (row_events self) done) ->
  exists r, In r done /\ In ev (row_events self r).
Proof. intros H. apply in_flat_map in H. exact H. Qed.



Section AggregationClaims.

Variable server : list event -> request -> outcome.
Variable self : FigshareInstituteAdmin.





End AggregationClaims.

(** *** The aggregation on the small institution *)





(** ** Resolving group names *)














Lemma has_column_false_assoc c df :
  has_column c df = false -> assoc c (df_columns df) = None.
Proof.
  unfold has_column. induction (df_columns df) as [|[k v] cols IH];
    cbn [existsb assoc fst]; [reflexivity |].
  destruct (String.eqb c k); [discriminate | exact IH].
Qed.

Section TableClaims.

Variable server : list event -> request -> outcome.
Variable self : FigshareInstituteAdmin.



(** C10.  The account list the aggregation starts from is the one
    [get_account_list] returns, and the names it assigns are Articles,
    Projects, Collections, Group, and Admin and Reviewer when flags are
    requested.  For an account list that has no column of those names
    (the listing of ids, e-mails and the like), the returned table keeps
    the row labels, every original column stands where it stood with its
    cells unchanged, and the new columns come after them, one per name in
    the order Articles, Projects, Collections, (Admin, Reviewer,)
    Group. *)
Theorem original_columns_spec (flag : bool) (w w1 : world)
    (acc df : DataFrame) (w' : world) :
  get_account_list server self w = (Ok acc, w1) ->
  (forall c, In c (new_names flag) -> has_column c acc = false) ->
  get_account_details server self flag w = (Ok df, w') ->
  df_index df = df_index acc /\
  (forall c cells, df_getitem c acc = Ok cells -> df_getitem c df = Ok cells) /\
  exists added,
    map fst added = new_names flag /\
    List.Forall (fun col => List.length (snd col) = shape0 acc) added /\
    df_columns df = df_columns acc ++ added.
Proof.
  intros Hlist Hfresh Hrun. apply get_account_details_inv in Hrun.
  destruct Hrun as (acc' & w1' & gdf & w2 & ids & done & gids & gnames &
                    Hacc & _ & _ & Hlen & Hdone & _ & _ & _ & _ & _ &
                    Hidx & Hcols).
  rewrite Hlist in Hacc. injection Hacc as <- <-.
  assert (Hn : List.length done = shape0 acc).
  { rewrite Hlen, <- Hdone, length_map. reflexivity. }
  assert (Hnone : forall c, In c (new_names flag) ->
                            assoc c (df_columns acc) = None).
  { intros c Hc. apply has_column_false_assoc. exact (Hfresh c Hc). }
  assert (Happ : exists added,
             map fst added = new_names flag /\
             List.Forall (fun col => List.length (snd col) = shape0 acc) added /\
             df_columns df = df_columns acc ++ added).
  { rewrite Hcols. unfold details_columns, flag_columns, new_names in *.
    destruct flag; cbn [app] in *.
    + rewrite (set_column_fresh "Articles") by (apply Hnone; simpl; tauto).
      rewrite (set_column_fresh "Projects")
        by (rewrite assoc_app_fresh, Hnone by (simpl; tauto); reflexivity).
      rewrite (set_column_fresh "Collections")
        by (rewrite !assoc_app_fresh, Hnone by (simpl; tauto); reflexivity).
      rewrite (set_column_fresh "Admin")
        by (rewrite !assoc_app_fresh, Hnone by (simpl; tauto); reflexivity).
      rewrite (set_column_fresh "Reviewer")
        by (rewrite !assoc_app_fresh, Hnone by (simpl; tauto); reflexivity).
      rewrite (set_column_fresh "Group")
        by (rewrite !assoc_app_fresh, Hnone by (simpl; tauto); reflexivity).
      rewrite <- !app_assoc. cbn [app]. eexists.
      split; [| split; [| reflexivity]]; [reflexivity |].
      repeat constructor; cbn [snd]; rewrite length_map; exact Hn.
    + rewrite (set_column_fresh "Articles") by (apply Hnone; simpl; tauto).
      rewrite (set_column_fresh "Projects")
        by (rewrite assoc_app_fresh, Hnone by (simpl; tauto); reflexivity).
      rewrite (set_column_fresh "Collections")
        by (rewrite !assoc_app_fresh, Hnone by (simpl; tauto); reflexivity).
      rewrite (set_column_fresh "Group")
        by (rewrite !assoc_app_fresh, Hnone by (simpl; tauto); reflexivity).
      rewrite <- !app_assoc. cbn [app]. eexists.
      split; [| split; [| reflexivity]]; [reflexivity |].
      repeat constructor; cbn [snd]; rewrite length_map; exact Hn. }
  split; [exact Hidx |]. split; [| exact Happ].
  destruct Happ as (added & _ & _ & Hdf).
  intros c cells Hc. unfold df_getitem in *. rewrite Hdf, assoc_app_fresh.
  destruct (assoc c (df_columns acc)) as [old|]; [exact Hc | discriminate Hc].
Qed.

End TableClaims.

(** *** The table on concrete servers *)





Lemma original_columns_spec_witness :
  exists df w' acc w1,
    get_account_details campus_server filtering_self true empty_world =
      (Ok df, w') /\
    get_account_list campus_server filtering_self empty_world = (Ok acc, w1) /\
    df_index df = df_index acc /\
    df_getitem "email" df = Ok [JStr "a@x.org"; JStr "b@x.org"] /\
    exists added,
      map fst added = new_names true /\
      df_columns df = df_columns acc ++ added.
Proof.
  eassert (Hrun : get_account_details campus_server filtering_self true
                    empty_world = (Ok _, _)) by (vm_compute; reflexivity).
  eassert (Hlist : get_account_list campus_server filtering_self empty_world =
                   (Ok _, _)) by (vm_compute; reflexivity).
  match type of Hlist with
  | _ = (Ok ?a, _) =>
      assert (Hfresh : forall c, In c (new_names true) -> has_column c a = false)
  end.
  { intros c Hc. unfold new_names in Hc. simpl in Hc.
    destruct Hc as [<- | [<- | [<- | [<- | [<- | [<- | []]]]]]];
      vm_compute; reflexivity. }
  destruct (original_columns_spec campus_server filtering_self true
              empty_world _ _ _ _ Hlist Hfresh Hrun)
    as (Hidx & Hsame & added & Hn & _ & Hc).
  eexists. eexists. eexists. eexists.
  split; [exact Hrun |]. split; [exact Hlist |]. split; [exact Hidx |].
  split; [apply Hsame; vm_compute; reflexivity |].
  exists added. split; assumption.
Defined.

(** The hypothesis on the names is what the assignments of lines 227-240
    need to append: if the objects of the account listing carried a field
    named Group, that column would be assigned to where it stands. *)
Example assignment_to_an_existing_name :
  exists acc w1 df w',
    get_account_list labelled_server plain_self empty_world = (Ok acc, w1) /\
    get_account_details labelled_server plain_self true empty_world =
      (Ok df, w') /\
    map fst (df_columns acc) = ["id"; "email"; "Group"] /\
    map fst (df_columns df) =
      ["id"; "email"; "Group"; "Articles"; "Projects"; "Collections";
       "Admin"; "Reviewer"] /\
    df_getitem "Group" df = Ok [JStr "N/A"].
Proof.
  eexists. eexists. eexists. eexists.
  split; [vm_compute; reflexivity |]. split; [vm_compute; reflexivity |].
  vm_compute. repeat split.
Qed.

(** * Further properties of the class *)

(** ** What a run may send *)

Lemma issues_only_ret P {A} (a : A) : issues_only P (ret a).
Proof. intros w. exists []. rewrite app_nil_r. split; [reflexivity | constructor]. Qed.

Lemma issues_only_raise P {A} (e : exn) : issues_only P (@raise A e).
Proof. intros w. exists []. rewrite app_nil_r. split; [reflexivity | constructor]. Qed.

Lemma issues_only_lift P {A} (r : result A) : issues_only P (lift r).
Proof. intros w. exists []. rewrite app_nil_r. split; [reflexivity | constructor]. Qed.

Lemma issues_only_log P lv msg : issues_only P (log_record lv msg).
Proof. intros w. exists []. rewrite app_nil_r. split; [reflexivity | constructor]. Qed.

Lemma issues_only_input P prompt : issues_only P (input prompt).
Proof.
  intros w. exists []. rewrite app_nil_r. split; [| constructor].
  unfold input. destruct (w_stdin w); reflexivity.
Qed.

Lemma issues_only_bind P {A B} (m : M A) (k : A -> M B) :
  issues_only P m -> (forall a, issues_only P (k a)) ->
  issues_only P (bind m k).
Proof.
  intros Hm Hk w. destruct (Hm w) as (evs & Ht & Hall).
  unfold bind. destruct (m w) as [[a|e] w1]; cbn [snd] in *.
  - destruct (Hk a w1) as (evs' & Ht' & Hall').
    exists (evs ++ evs'). split.
    + rewrite Ht', Ht, app_assoc. reflexivity.
    + apply List.Forall_app. split; assumption.
  - exists evs. split; assumption.
Qed.

Lemma issues_only_try P {A} (body handler : M A) :
  issues_only P body -> issues_only P handler ->
  issues_only P (try_except_HTTPError body handler).
Proof.
  intros Hb Hh w. destruct (Hb w) as (evs & Ht & Hall).
  unfold try_except_HTTPError.
  destruct (body w) as [[a|e] w1]; cbn [snd] in *.
  - exists evs. split; assumption.
  - assert (Hcaught : exists evs',
              w_trace (snd (handler w1)) = w_trace w ++ evs' /\
              List.Forall (fun ev => P (ev_request ev)) evs').
    { destruct (Hh w1) as (evs' & Ht' & Hall'). exists (evs ++ evs'). split.
      - rewrite Ht', Ht, app_assoc. reflexivity.
      - apply List.Forall_app. split; assumption. }
    destruct e; try (exists evs; split; assumption). exact Hcaught.
Qed.

Lemma issues_only_for_each P {A S} (l : list A) (body : A -> S -> M S) :
  (forall x acc, issues_only P (body x acc)) ->
  forall acc, issues_only P (for_each l body acc).
Proof.
  intros Hbody. induction l as [|x l IH]; intros acc; cbn [for_each].
  - apply issues_only_ret.
  - apply issues_only_bind; [apply Hbody | exact IH].
Qed.

Lemma issues_only_request P server m url hdrs params :
  P (mkRequest m url hdrs params) ->
  issues_only P (redata_request server m url hdrs params).
Proof.
  intros HP w. rewrite redata_request_run. cbn [snd exchange w_trace].
  eexists. split; [reflexivity |]. repeat constructor. exact HP.
Qed.

Lemma prefix_append s t : String.prefix s (s +:+ t) = true.
Proof.
  induction s as [|c s IH]; [destruct t; reflexivity |].
  change (String c s +:+ t) with (String c (s +:+ t)). cbn [String.prefix].
  destruct (ascii_dec c c); [exact IH | contradiction].
Qed.

Lemma append_assoc_str s t u : (s +:+ t) +:+ u = s +:+ (t +:+ u).
Proof.
  induction s as [|c s IH]; [reflexivity |].
  change (String c s +:+ t) with (String c (s +:+ t)).
  change (String c (s +:+ t) +:+ u) with (String c ((s +:+ t) +:+ u)).
  rewrite IH. reflexivity.
Qed.

Section BuiltClient.

Variable server : list event -> request -> outcome.
Variables (token : string) (stage : bool) (filters : option (list string)).

Let self : FigshareInstituteAdmin := __init__ token stage filters.

Lemma endpoint_addressed m link institute params :
  addressed token stage (mkRequest m (endpoint self link institute)
                           (headers self) params).
Proof.
  unfold addressed, endpoint, self, __init__, host, sent_headers.
  cbn [rq_url rq_headers baseurl baseurl_institute headers]. split.
  - destruct institute, stage; cbn [negb];
      rewrite ?append_assoc_str; apply prefix_append.
  - destruct (String.eqb token ""); reflexivity.
Qed.

Lemma get_issues_read_request link institute params :
  issues_only (read_request token stage)
    (redata_request server GET (endpoint self link institute) (headers self)
       params).
Proof.
  apply issues_only_request. split; [reflexivity | apply endpoint_addressed].
Qed.

Ltac read_only_steps :=
  repeat first
    [ apply issues_only_ret
    | apply issues_only_lift
    | apply issues_only_log
    | apply get_issues_read_request
    | apply issues_only_bind; [| intros ? ] ].

Lemma get_account_list_reads :
  issues_only (read_request token stage) (get_account_list server self).
Proof.
  unfold get_account_list. read_only_steps.
  destruct (ignore_admin self); unfold log_info; read_only_steps.
Qed.

Lemma listing_reads (fetch : Z -> M DataFrame) what n id counts :
  issues_only (read_request token stage) (fetch id) ->
  issues_only (read_request token stage) (count_or_warn fetch what n id counts).
Proof.
  intros H. unfold count_or_warn. apply issues_only_try.
  - read_only_steps. exact H.
  - unfold log_warning. read_only_steps.
Qed.

(** Every accessor that only reads: whatever the server answers and
    whatever the method then returns or raises, each of its requests is a
    GET below the base URL fixed by [stage], with the JSON content type
    and, for a non-empty token, the authorization header. *)
Theorem accessors_only_read (account_id : Z) (article_id : option Z)
    (curation_id checked_id : Z) :
  issues_only (read_request token stage) (get_articles server self) /\
  issues_only (read_request token stage) (get_user_articles server self account_id) /\
  issues_only (read_request token stage) (get_user_projects server self account_id) /\
  issues_only (read_request token stage)
    (get_user_collections server self account_id) /\
  issues_only (read_request token stage) (get_groups server self) /\
  issues_only (read_request token stage) (get_account_list server self) /\
  issues_only (read_request token stage)
    (get_account_group_roles server self account_id) /\
  issues_only (read_request token stage)
    (get_curation_list server self article_id) /\
  issues_only (read_request token stage)
    (get_curation_details server self curation_id) /\
  issues_only (read_request token stage)
    (get_curation_comments server self curation_id) /\
  issues_only (read_request token stage) (doi_check server self checked_id).
Proof.
  repeat split;
    try (apply get_account_list_reads);
    unfold get_articles, get_user_articles, get_user_projects,
      get_user_collections, get_groups, get_account_group_roles,
      get_curation_list, get_curation_details, get_curation_comments,
      doi_check;
    read_only_steps.
Qed.

(** The aggregation never writes: on every run, completed or aborted,
    all its requests are GETs addressed as above. *)
Theorem get_account_details_only_reads (flag : bool) :
  issues_only (read_request token stage) (get_account_details server self flag).
Proof.
  destruct (accessors_only_read 0 None 0 0)
    as (_ & _ & _ & _ & Hgroups & Hlist & _).
  unfold get_account_details.
  apply issues_only_bind; [exact Hlist | intros acc].
  apply issues_only_bind; [exact Hgroups | intros gdf].
  apply issues_only_bind; [apply issues_only_lift | intros cells].
  apply issues_only_bind; [apply issues_only_lift | intros ids].
  apply issues_only_bind.
  - apply issues_only_for_each. intros [n id] L. unfold account_body.
    destruct (accessors_only_read id None 0 0)
      as (_ & Ha & Hp & Hc & _ & _ & Hr & _).
    apply issues_only_bind; [exact Hr | intros roles].
    apply issues_only_bind; [apply listing_reads; exact Ha | intros arts].
    apply issues_only_bind; [apply listing_reads; exact Hp | intros projs].
    apply issues_only_bind; [apply listing_reads; exact Hc | intros colls].
    apply issues_only_lift.
  - intros L. read_only_steps.
    unfold resolve_groups. apply issues_only_for_each.
    intros g names. unfold log_info. read_only_steps.
Qed.

(** [reserve_doi] talks to the same host with the same headers, whatever
    happens. *)
Theorem reserve_doi_addressed (article_id : Z) :
  issues_only (addressed token stage) (reserve_doi server self article_id).
Proof.
  unfold reserve_doi. apply issues_only_bind.
  - unfold doi_check. apply issues_only_bind.
    + apply issues_only_request. apply endpoint_addressed.
    + intros details. apply issues_only_bind; [apply issues_only_lift |].
      intros doi. apply issues_only_bind; [apply issues_only_lift |].
      intros doi'. apply issues_only_ret.
  - intros [checked doi_string]. destruct checked; unfold log_info, log_warning.
    + apply issues_only_bind; [apply issues_only_log |]. intros _.
      apply issues_only_ret.
    + apply issues_only_bind; [apply issues_only_log |]. intros _.
      apply issues_only_bind; [apply issues_only_input |]. intros line.
      apply issues_only_bind; [apply issues_only_log |]. intros _.
      destruct (String.eqb (lower line) "yes").
      * apply issues_only_bind; [apply issues_only_log |]. intros _.
        apply issues_only_bind;
          [apply issues_only_request; apply endpoint_addressed |].
        intros response.
        apply issues_only_bind; [apply issues_only_lift |]. intros minted.
        apply issues_only_bind; [apply issues_only_lift |]. intros text.
        apply issues_only_bind; [apply issues_only_log |]. intros _.
        apply issues_only_bind; [apply issues_only_lift |]. intros minted'.
        apply issues_only_ret.
      * apply issues_only_bind; [apply issues_only_log |]. intros _.
        apply issues_only_ret.
Qed.

End BuiltClient.

(** ** Edge behaviour of the account list and the aggregation *)

Section AggregationEdges.

Variable server : list event -> request -> outcome.
Variable self : FigshareInstituteAdmin.

Lemma get_account_list_after_fetch w :
  get_account_list server self w =
    match server (w_trace w) (accounts_request self) with
    | Failed => (Raise HTTPError, exchange server w (accounts_request self))
    | Returned body =>
        bind (lift (pd_DataFrame body)) (fun accounts_df =>
        bind (lift (df_drop_columns "institution_id" accounts_df))
          (fun accounts_df =>
           if ignore_admin self then
             bind (log_info "Excluding administrative and test accounts")
               (fun _ =>
             bind (lift (match admin_filter self with
                         | Some fs => Ok fs
                         | None => Raise TypeError
                         end)) (fun fs =>
             bind (lift (collect_drop_index accounts_df fs)) (fun drop_index =>
             bind (lift (df_drop drop_index accounts_df)) (fun accounts_df =>
             ret (df_reset_index accounts_df)))))
           else ret accounts_df))
          (exchange server w (accounts_request self))
    end.
Proof.
  unfold get_account_list, bind at 1. rewrite redata_request_run.
  change (mkRequest GET (endpoint self "accounts" true) (headers self)
            (Some [("page", JInt 1); ("page_size", JInt 1000)]))
    with (accounts_request self).
  destruct (server (w_trace w) (accounts_request self)); reflexivity.
Qed.

(** An account listing none of whose objects carries an institution
    reference -- in particular an empty listing -- makes
    [get_account_list] raise [KeyError] for that column, after its single
    request. *)
Theorem get_account_list_needs_institution_id (w : world) (body : json)
    (raw : DataFrame) :
  server (w_trace w) (accounts_request self) = Returned body ->
  pd_DataFrame body = Ok raw ->
  has_column "institution_id" raw = false ->
  get_account_list server self w =
    (Raise (KeyError "institution_id"),
     exchange server w (accounts_request self)).
Proof.
  intros Hs Hdf Hno. rewrite get_account_list_after_fetch, Hs.
  unfold bind, lift. rewrite Hdf. unfold df_drop_columns. rewrite Hno.
  reflexivity.
Qed.

(** A failure of the account listing is fatal for the aggregation, which
    has then made that one request only. *)
Theorem account_listing_failure_is_fatal (flag : bool) (w : world) :
  server (w_trace w) (accounts_request self) = Failed ->
  get_account_details server self flag w =
    (Raise HTTPError, exchange server w (accounts_request self)).
Proof.
  intros Hs. unfold get_account_details.
  apply bind_Raise. rewrite get_account_list_after_fetch, Hs. reflexivity.
Qed.

(** A failure of the group listing is fatal too, and comes before any
    per-account request: the aggregation stops after its second
    request. *)
Theorem group_listing_failure_is_fatal (flag : bool) (w w1 : world)
    (acc : DataFrame) :
  get_account_list server self w = (Ok acc, w1) ->
  server (w_trace w1) (groups_request self) = Failed ->
  get_account_details server self flag w =
    (Raise HTTPError, exchange server w1 (groups_request self)) /\
  issued w (exchange server w1 (groups_request self)) =
    [mkEvent (accounts_request self) (server (w_trace w) (accounts_request self));
     mkEvent (groups_request self) Failed].
Proof.
  intros Hacc Hs. split.
  - unfold get_account_details. rewrite (bind_Ok _ _ _ _ _ Hacc).
    apply bind_Raise.
    destruct (get_groups_run server self w1) as [Hw Hr].
    rewrite Hs in Hr.
    destruct (get_groups server self w1) as [r w2]. cbn [fst snd] in *.
    subst. reflexivity.
  - apply issued_app. cbn [exchange w_trace]. rewrite Hs.
    destruct (get_account_list_world server self w) as [Ta _].
    rewrite Hacc in Ta. cbn [snd] in Ta. rewrite Ta, <- app_assoc.
    reflexivity.
Qed.







End AggregationEdges.

(** *** The edge cases on concrete servers *)

Lemma get_account_list_needs_institution_id_witness :
  get_account_list empty_server plain_self empty_world =
    (Raise (KeyError "institution_id"),
     exchange empty_server empty_world (accounts_request plain_self)).
Proof.
  eapply get_account_list_needs_institution_id;
    [reflexivity | reflexivity | reflexivity].
Defined.

Lemma account_listing_failure_is_fatal_witness :
  get_account_details down_server plain_self true empty_world =
    (Raise HTTPError,
     exchange down_server empty_world (accounts_request plain_self)).
Proof. apply account_listing_failure_is_fatal. reflexivity. Defined.

Lemma group_listing_failure_is_fatal_witness :
  fst (get_account_details groups_down_server filtering_self true empty_world) =
    Raise HTTPError.
Proof.
  edestruct group_listing_failure_is_fatal
    with (server := groups_down_server) (self := filtering_self) (flag := true)
         (w := empty_world) as [Hrun _];
    [vm_compute; reflexivity | vm_compute; reflexivity |].
  rewrite Hrun. reflexivity.
Defined.



(** ** Edge behaviour of the DOI workflow *)

Section DoiEdges.

Variable server : list event -> request -> outcome.
Variable self : FigshareInstituteAdmin.

(** [doi_check] makes its one request and then fails in three ways: with
    the transport's [HTTPError]; with [TypeError] when the body is not an
    object; with [KeyError] when the object has no [doi] field. *)
Theorem doi_check_errors (article_id : Z) (w : world) :
  snd (doi_check server self article_id w) =
    exchange server w (article_request self article_id) /\
  (server (w_trace w) (article_request self article_id) = Failed ->
   fst (doi_check server self article_id w) = Raise HTTPError) /\
  (forall body,
     server (w_trace w) (article_request self article_id) = Returned body ->
     (forall kv, body <> JDict kv) ->
     fst (doi_check server self article_id w) = Raise TypeError) /\
  (forall kv,
     server (w_trace w) (article_request self article_id) = Returned (JDict kv) ->
     assoc "doi" kv = None ->
     fst (doi_check server self article_id w) = Raise (KeyError "doi")).
Proof.
  destruct (doi_check_run server self article_id w) as [Hw Hr].
  split; [exact Hw |]. split; [| split].
  - intros Hs. rewrite Hr, Hs. reflexivity.
  - intros body Hs Hnot. rewrite Hr, Hs.
    destruct body; try reflexivity. exfalso. exact (Hnot kv eq_refl).
  - intros kv Hs Hnone. rewrite Hr, Hs. cbn [subscript]. rewrite Hnone.
    reflexivity.
Qed.

(** Once the operator has typed "yes" the reservation is requested before
    anything else can go wrong: the POST is recorded, and one console line
    consumed, also when the transport then raises [HTTPError] or the
    answer carries no usable [doi] field, in which case [reserve_doi]
    raises after the mutation. *)
Theorem reserve_doi_posts_before_failing (article_id : Z) (w w1 : world)
    (d : json) (line : string) (rest : list string) :
  doi_check server self article_id w = (Ok (false, d), w1) ->
  w_stdin w = line :: rest ->
  lower line = "yes" ->
  let run := reserve_doi server self article_id w in
  posts (issued w (snd run)) =
    [mkEvent (reserve_request self article_id)
       (server (w_trace w1) (reserve_request self article_id))] /\
  w_stdin (snd run) = rest /\
  (server (w_trace w1) (reserve_request self article_id) = Failed ->
   fst run = Raise HTTPError) /\
  (forall response e,
     server (w_trace w1) (reserve_request self article_id) = Returned response ->
     subscript response "doi" = Raise e ->
     fst run = Raise e).
Proof.
  intros Hc Hin Hyes run. subst run. apply String.eqb_eq in Hyes.
  destruct (reserve_doi_accepted server self _ _ _ _ _ _ Hc Hin Hyes)
    as (w' & Htr & Hs & Hsnd & Hfst).
  rewrite Hsnd. split; [| split; [exact Hs | split]].
  - rewrite (issued_after_check server self _ _ _ _ _ _ Hc Htr). reflexivity.
  - intros Hfail. rewrite Hfst, Hfail. reflexivity.
  - intros response e Hresp He. rewrite Hfst, Hresp. cbn [rbind].
    rewrite He. reflexivity.
Qed.

(** [reserve_doi] reads the console only to ask: nothing is read when the
    article is already reserved or the check raises (the exception of the
    check is the one [reserve_doi] raises, after that one request),
    exactly one line otherwise, and on an exhausted console it raises
    [EOFError] without any POST. *)
Theorem reserve_doi_console (article_id : Z) (w : world) :
  let run := reserve_doi server self article_id w in
  (forall d w1,
     doi_check server self article_id w = (Ok (true, d), w1) ->
     w_stdin (snd run) = w_stdin w) /\
  (forall e w1,
     doi_check server self article_id w = (Raise e, w1) ->
     fst run = Raise e /\ w_stdin (snd run) = w_stdin w /\
     List.length (issued w (snd run)) = 1%nat /\
     posts (issued w (snd run)) = []) /\
  (forall d w1,
     doi_check server self article_id w = (Ok (false, d), w1) ->
     w_stdin w = [] ->
     fst run = Raise EOFError /\ posts (issued w (snd run)) = []) /\
  (forall d w1 line rest,
     doi_check server self article_id w = (Ok (false, d), w1) ->
     w_stdin w = line :: rest ->
     w_stdin (snd run) = rest).
Proof.
  intros run. subst run. split; [| split; [| split]].
  - intros d w1 Hc. rewrite (reserve_doi_reserved server self _ _ _ _ Hc).
    rewrite (doi_check_frame server self _ _ _ _ Hc). reflexivity.
  - intros e w1 Hc. rewrite (reserve_doi_failed_check server self _ _ _ _ Hc).
    rewrite (doi_check_frame server self _ _ _ _ Hc).
    cbn [fst snd]. rewrite issued_exchange.
    split; [reflexivity |]. split; [reflexivity |]. split; reflexivity.
  - intros d w1 Hc Hin.
    rewrite (reserve_doi_no_input server self _ _ _ _ Hc Hin).
    split; [reflexivity |].
    rewrite (issued_after_check server self _ _ _ _ _ [] Hc); [reflexivity |].
    cbn [logged w_trace]. rewrite app_nil_r. reflexivity.
  - intros d w1 line rest Hc Hin.
    destruct (String.eqb (lower line) "yes") eqn:Hyes.
    + destruct (reserve_doi_accepted server self _ _ _ _ _ _ Hc Hin Hyes)
        as (w' & _ & Hs & Hsnd & _).
      rewrite Hsnd. exact Hs.
    + rewrite (reserve_doi_declined server self _ _ _ _ _ _ Hc Hin Hyes).
      reflexivity.
Qed.

End DoiEdges.

Lemma lower_ascii_letter c x :
  In x ["y"; "e"; "s"]%char ->
  lower_ascii c = x ->
  c = x \/ c = ascii_of_nat (nat_of_ascii x - 32).
Proof.
  intros Hx H.
  destruct c as [[] [] [] [] [] [] [] []];
    destruct Hx as [<- | [<- | [<- | []]]];
    vm_compute in H; try discriminate H; vm_compute; auto.
Qed.

(** The answers that confirm a reservation are the eight ways of casing
    "yes", with nothing before or after: no other console line makes
    [reserve_doi] post. *)
Theorem confirming_answers (line : string) :
  lower line = "yes" <->
  In line ["yes"; "yeS"; "yEs"; "yES"; "Yes"; "YeS"; "YEs"; "YES"]%string.
Proof.
  split.
  - destruct line as [|a [|b [|c [|? ?]]]]; cbn [lower]; try discriminate.
    intros H. injection H as Ha Hb Hc.
    apply lower_ascii_letter in Ha; [| simpl; tauto].
    apply lower_ascii_letter in Hb; [| simpl; tauto].
    apply lower_ascii_letter in Hc; [| simpl; tauto].
    destruct Ha as [-> | ->], Hb as [-> | ->], Hc as [-> | ->];
      vm_compute; tauto.
  - intros H. repeat (destruct H as [<- | H]; [reflexivity |]). destruct H.
Qed.

Lemma doi_check_errors_witness :
  fst (doi_check empty_server plain_self 5 empty_world) = Raise TypeError /\
  fst (doi_check down_server plain_self 5 empty_world) = Raise HTTPError.
Proof.
  destruct (doi_check_errors empty_server plain_self 5 empty_world)
    as (_ & _ & Htype & _).
  destruct (doi_check_errors down_server plain_self 5 empty_world)
    as (_ & Hhttp & _).
  split.
  - eapply Htype; [reflexivity | discriminate].
  - apply Hhttp. reflexivity.
Defined.

Lemma reserve_doi_posts_before_failing_witness :
  fst (reserve_doi silent_server plain_self 4 (console ["YES"])) =
    Raise (KeyError "doi") /\
  List.length (posts (issued (console ["YES"])
                 (snd (reserve_doi silent_server plain_self 4
                         (console ["YES"]))))) = 1%nat.
Proof.
  edestruct reserve_doi_posts_before_failing
    with (server := silent_server) (self := plain_self) (article_id := 4)
         (w := console ["YES"])
    as (Hposts & _ & _ & Hkey);
    [vm_compute; reflexivity | reflexivity | reflexivity |].
  split.
  - eapply Hkey; [vm_compute; reflexivity | reflexivity].
  - rewrite Hposts. reflexivity.
Defined.

Lemma reserve_doi_console_witness :
  fst (reserve_doi doi_server plain_self 2 (console [])) = Raise EOFError /\
  w_stdin (snd (reserve_doi doi_server plain_self 1 (console ["yes"]))) =
    ["yes"%string].
Proof.
  destruct (reserve_doi_console doi_server plain_self 2 (console []))
    as (_ & _ & Heof & _).
  destruct (reserve_doi_console doi_server plain_self 1 (console ["yes"]))
    as (Hkeep & _).
  split.
  - eapply Heof; [vm_compute; reflexivity | reflexivity].
  - eapply Hkeep. vm_compute. reflexivity.
Defined.

(** ** Listings as tables *)

Lemma as_records_objects recs : as_records (map JDict recs) = Some recs.
Proof.
  induction recs as [|r recs IH]; [reflexivity |].
  cbn [map as_records]. rewrite IH. reflexivity.
Qed.

Lemma fetch_tabulates server (m : M DataFrame) (rq : request) :
  (forall w,
     snd (m w) = exchange server w rq /\
     fst (m w) = match server (w_trace w) rq with
                 | Returned body => pd_DataFrame body
                 | Failed => Raise HTTPError
                 end) ->
  tabulates server m rq.
Proof.
  intros Hrun w. destruct (Hrun w) as [_ Hr]. split; [split |].
  - rewrite Hr. destruct (server (w_trace w) rq) as [body|]; [| reflexivity].
    intros H. apply pd_DataFrame_raises in H. discriminate H.
  - intros Hs. rewrite Hr, Hs. reflexivity.
  - intros recs Hs. rewrite Hr, Hs. unfold pd_DataFrame.
    rewrite as_records_objects. eexists. split; [reflexivity |].
    unfold shape0, rectangular. cbn [df_index df_columns].
    rewrite length_seq, map_map. cbn [fst]. rewrite map_id.
    repeat split.
    apply List.Forall_forall. intros col Hin. apply in_map_iff in Hin.
    destruct Hin as (k & <- & _). cbn [snd]. rewrite length_map.
    unfold shape0. cbn [df_index]. rewrite length_seq. reflexivity.
Qed.

(** The five plain listing accessors and the curation list all tabulate
    their answer and pass the transport's [HTTPError] through. *)
Theorem listings_tabulate server self (account_id : Z) (article_id : option Z) :
  tabulates server (get_articles server self) (articles_request self) /\
  tabulates server (get_user_articles server self account_id)
    (user_request self "articles" account_id) /\
  tabulates server (get_user_projects server self account_id)
    (user_request self "projects" account_id) /\
  tabulates server (get_user_collections server self account_id)
    (user_request self "collections" account_id) /\
  tabulates server (get_groups server self) (groups_request self) /\
  tabulates server (get_curation_list server self article_id)
    (curation_request self article_id).
Proof.
  split; [| split; [| split; [| split; [| split]]]];
    apply fetch_tabulates; intros w.
  - apply get_articles_run.
  - apply get_user_articles_run.
  - apply get_user_projects_run.
  - apply get_user_collections_run.
  - apply get_groups_run.
  - apply get_curation_list_run.
Qed.

(** ** Requests of different accounts never coincide *)

Lemma str_of_Z_inj a b : str_of_Z a = str_of_Z b -> a = b.
Proof.
  unfold str_of_Z. intros H.
  apply (f_equal NilEmpty.int_of_string) in H.
  rewrite !NilEmpty.isi in H. injection H as H.
  apply (f_equal Z.of_int) in H. rewrite !DecimalZ.of_to in H. exact H.
Qed.

Lemma append_cancel_l s a b : s +:+ a = s +:+ b -> a = b.
Proof.
  induction s as [|c s IH]; [trivial |].
  change (String c s +:+ a) with (String c (s +:+ a)).
  change (String c s +:+ b) with (String c (s +:+ b)).
  intros H. injection H as H. exact (IH H).
Qed.

Lemma length_append s t :
  String.length (s +:+ t) = (String.length s + String.length t)%nat.
Proof.
  induction s as [|c s IH]; [reflexivity |].
  change (String c s +:+ t) with (String c (s +:+ t)). simpl. rewrite IH.
  reflexivity.
Qed.

Lemma append_cancel_r s1 s2 t : s1 +:+ t = s2 +:+ t -> s1 = s2.
Proof.
  revert s2. induction s1 as [|c s1 IH]; intros [|d s2] H.
  - reflexivity.
  - apply (f_equal String.length) in H.
    rewrite !length_append in H. cbn [String.length] in H. lia.
  - apply (f_equal String.length) in H.
    rewrite !length_append in H. cbn [String.length] in H. lia.
  - change (String c s1 +:+ t) with (String c (s1 +:+ t)) in H.
    change (String d s2 +:+ t) with (String d (s2 +:+ t)) in H.
    injection H as -> H. rewrite (IH s2 H). reflexivity.
Qed.

(** The account id (or article id, or curation id) can be read back from
    every request built for it: two different ids never share a roles,
    listing, article, reservation or curation request. *)
Theorem requests_determine_their_id (self : FigshareInstituteAdmin) (a b : Z) :
  (roles_request self a = roles_request self b -> a = b) /\
  (forall what, user_request self what a = user_request self what b -> a = b) /\
  (article_request self a = article_request self b -> a = b) /\
  (reserve_request self a = reserve_request self b -> a = b) /\
  (endpoint self ("review/" +:+ str_of_Z a) true =
   endpoint self ("review/" +:+ str_of_Z b) true -> a = b) /\
  (endpoint self ("review/" +:+ str_of_Z a +:+ "/comments") true =
   endpoint self ("review/" +:+ str_of_Z b +:+ "/comments") true -> a = b).
Proof.
  unfold roles_request, user_request, article_request, reserve_request,
    endpoint.
  split; [| split; [| split; [| split; [| split]]]].
  - intros H. injection H as H. apply append_cancel_l in H.
    apply (append_cancel_l "roles/") in H. exact (str_of_Z_inj _ _ H).
  - intros what H. injection H as H. exact H.
  - intros H. injection H as H. apply append_cancel_l in H.
    apply (append_cancel_l "articles/") in H. exact (str_of_Z_inj _ _ H).
  - intros H. injection H as H. apply append_cancel_l in H.
    apply (append_cancel_l "articles/") in H.
    apply append_cancel_r in H. exact (str_of_Z_inj _ _ H).
  - intros H. apply append_cancel_l in H.
    apply (append_cancel_l "review/") in H. exact (str_of_Z_inj _ _ H).
  - intros H. apply append_cancel_l in H.
    apply (append_cancel_l "review/") in H.
    apply append_cancel_r in H. exact (str_of_Z_inj _ _ H).
Qed.

(** ** The scan writes to one row *)

(** A completed scan of one account's roles leaves the three count arrays
    alone and, in the group and flag arrays, changes nothing but row [n];
    the arrays keep their lengths, the flag arrays stay unbound when flags
    are not requested, and a flag already raised is never lowered. *)
Theorem scan_roles_frame (flag : bool) (n : nat) (roles : json) (L L' : locals) :
  scan_roles flag n roles L = Ok L' ->
  num_articles L' = num_articles L /\
  num_projects L' = num_projects L /\
  num_collections L' = num_collections L /\
  List.length (group_assoc L') = List.length (group_assoc L) /\
  (forall m, m <> n -> group_assoc L' !! m = group_assoc L !! m) /\
  (forall a, admin_flag L = Some a ->
     exists a', admin_flag L' = Some a' /\
                List.length a' = List.length a /\
                (forall m, m <> n -> a' !! m = a !! m) /\
                (a !! n = Some "X"%string -> a' !! n = Some "X"%string)) /\
  (forall r, reviewer_flag L = Some r ->
     exists r', reviewer_flag L' = Some r' /\
                List.length r' = List.length r /\
                (forall m, m <> n -> r' !! m = r !! m) /\
                (r !! n = Some "X"%string -> r' !! n = Some "X"%string)) /\
  (admin_flag L = None -> admin_flag L' = None) /\
  (reviewer_flag L = None -> reviewer_flag L' = None).
Proof.
  intros H. apply scan_roles_mark in H. subst L'. unfold mark.
  cbn [num_articles num_projects num_collections group_assoc admin_flag
       reviewer_flag].
  assert (Hflagged : forall (b : bool) (o : option (list string)) a,
            o = Some a ->
            exists a',
              (if b then option_map (fun l => <[n := "X"%string]> l) o else o) =
                Some a' /\
              List.length a' = List.length a /\
              (forall m, m <> n -> a' !! m = a !! m) /\
              (a !! n = Some "X"%string -> a' !! n = Some "X"%string)).
  { intros b o a ->. destruct b; cbn [option_map].
    - exists (<[n := "X"%string]> a). split; [reflexivity |].
      split; [apply length_insert |]. split.
      + intros m Hm. apply list_lookup_insert_ne. congruence.
      + intros Hx. apply list_lookup_insert_eq.
        apply lookup_lt_Some in Hx. exact Hx.
    - exists a. repeat split; trivial. }
  split; [reflexivity |]. split; [reflexivity |]. split; [reflexivity |].
  split; [| split; [| split; [| split; [| split]]]].
  - destruct (curator_key roles); [apply length_insert | reflexivity].
  - intros m Hm. destruct (curator_key roles); [| reflexivity].
    apply list_lookup_insert_ne. congruence.
  - intros a Ha. exact (Hflagged _ _ a Ha).
  - intros r Hr. exact (Hflagged _ _ r Hr).
  - intros ->. destruct (flag && holds_role roles 2); reflexivity.
  - intros ->. destruct (flag && holds_role roles 49); reflexivity.
Qed.

Lemma scan_roles_frame_witness :
  exists L',
    scan_roles true 1 (JDict [("7", JList [role 11; role 49])])
      (init_locals true 3) = Ok L' /\
    num_articles L' = [0; 0; 0] /\
    group_assoc L' !! 0%nat = Some "N/A"%string /\
    group_assoc L' !! 1%nat = Some "7"%string.
Proof.
  eassert (Hscan : scan_roles true 1 (JDict [("7", JList [role 11; role 49])])
                     (init_locals true 3) = Ok _) by (vm_compute; reflexivity).
  destruct (scan_roles_frame _ _ _ _ _ Hscan) as (Ha & _ & _ & _ & Hg & _).
  eexists. split; [exact Hscan |]. split; [exact Ha |].
  split; [rewrite (Hg 0%nat) by lia; reflexivity | vm_compute; reflexivity].
Defined.

(** ** An empty filter list *)

Lemma select_all {A} (idx : list nat) (l : list A) :
  List.length l = List.length idx ->
  select (map (fun i => negb (mem_nat i [])) idx) l = l.
Proof.
  revert l. induction idx as [|i idx IH]; intros [|x l] H;
    try discriminate H; [reflexivity |].
  cbn [map select]. change (negb (mem_nat i [])) with true. cbn iota.
  f_equal. apply IH. injection H as H. exact H.
Qed.

(** [__init__] turns filtering on for any list, the empty one included.
    A client built with an empty filter list returns the same account
    list as a client built without filter; it only logs one more line. *)
Theorem empty_filter_keeps_everyone
    (server : list event -> request -> outcome) (token : string)
    (stage : bool) (w w1 : world) (acc : DataFrame) :
  get_account_list server (__init__ token stage None) w = (Ok acc, w1) ->
  get_account_list server (__init__ token stage (Some [])) w =
    (Ok acc, logged w1 INFO "Excluding administrative and test accounts").
Proof.
  intros Hplain.
  pose proof (get_account_list_rectangular _ _ _ _ _ Hplain) as Hrect.
  rewrite get_account_list_after_fetch in Hplain |- *.
  change (accounts_request (__init__ token stage (Some [])))
    with (accounts_request (__init__ token stage None)).
  destruct (server (w_trace w) (accounts_request (__init__ token stage None)))
    as [body|]; [| discriminate Hplain].
  unfold bind at 1, lift at 1 in Hplain. unfold bind at 1, lift at 1.
  destruct (pd_DataFrame body) as [raw|e] eqn:Hdf; [| discriminate Hplain].
  destruct (pd_DataFrame_shape _ _ Hdf) as [Hidx _].
  unfold bind at 1, lift at 1 in Hplain. unfold bind at 1, lift at 1.
  destruct (df_drop_columns "institution_id" raw) as [acc0|e] eqn:Hdrop;
    [| discriminate Hplain].
  cbn [ignore_admin __init__ admin_filter] in *.
  unfold ret in Hplain. injection Hplain as <- <-.
  assert (Hidx0 : df_index acc0 = seq 0 (shape0 acc0)).
  { unfold df_drop_columns in Hdrop. destruct (has_column _ raw);
      [| discriminate Hdrop]. injection Hdrop as <-.
    unfold shape0 in *. cbn [df_index]. exact Hidx. }
  unfold bind, log_info, log_record, lift, ret, collect_drop_index, df_drop.
  cbn [for_pure forallb]. unfold logged, df_reset_index, df_where.
  f_equal. f_equal. destruct acc0 as [idx cols].
  unfold shape0 in *. cbn [df_index df_columns] in *. f_equal.
  - rewrite (select_all idx idx eq_refl). symmetry. exact Hidx0.
  - unfold rectangular, shape0 in Hrect. cbn [df_index df_columns] in Hrect.
    clear Hdrop. induction Hrect as [|[c cells] cols Hc Hrect IH];
      [reflexivity |].
    cbn [map fst snd] in *. rewrite (select_all idx cells Hc), IH.
    reflexivity.
Qed.

Lemma empty_filter_keeps_everyone_witness :
  fst (get_account_list campus_server (__init__ "secret" false (Some []))
         empty_world) =
  fst (get_account_list campus_server plain_self empty_world).
Proof.
  eassert (Hplain : get_account_list campus_server
                      (__init__ "secret" false None) empty_world = (Ok _, _))
    by (vm_compute; reflexivity).
  rewrite (empty_filter_keeps_everyone _ _ _ _ _ _ Hplain).
  unfold plain_self. rewrite Hplain. reflexivity.
Defined.

Lemma listings_tabulate_witness :
  exists df,
    fst (get_groups campus_server plain_self empty_world) = Ok df /\
    shape0 df = 2%nat /\
    map fst (df_columns df) = ["id"; "name"]%string.
Proof.
  destruct (listings_tabulate campus_server plain_self 0 None)
    as (_ & _ & _ & _ & Hgroups & _).
  destruct (Hgroups empty_world) as [_ Htable].
  destruct (Htable [[("id"%string, JInt 1); ("name"%string, JStr "A")];
                    [("id"%string, JInt 11); ("name"%string, JStr "B")]])
    as (df & Hdf & Hn & _ & Hcols & _); [vm_compute; reflexivity |].
  exists df. split; [exact Hdf |]. split; [exact Hn | exact Hcols].
Defined.

Lemma requests_determine_their_id_witness :
  roles_request plain_self 12 <> roles_request plain_self 21.
Proof.
  intros H.
  pose proof (proj1 (requests_determine_their_id plain_self 12 21) H) as E.
  discriminate E.
Defined.
